(** * Email ingestion and filtering engine of [email_filter_dashboard.py]

    A shallow embedding of the retrieval path ([fetch_emails], the worker,
    [_on_fetch_done], [fetch_real_emails], [decode_header],
    [extract_email_body], [parse_sender]), of the demo loader
    ([demo_data.load_demo_emails_between]) and of the filter
    ([apply_search_filter], [_build_search_cache]), followed by the
    properties of the specification that concern them.

    Conventions.  A Python [str] is a [string] whose characters are read as
    the code points 0..255.  A naive [datetime] is a day ordinal together
    with the microseconds elapsed since midnight.  A call that may raise
    returns an [Exc].  What the mail server and the [email]/[imaplib]
    libraries answer on a given message is part of the input. *)

From Stdlib Require Import ZArith List String Ascii Bool Arith Lia DecimalString.
From Stdlib Require Import Permutation Sorted.
Import ListNotations.
Local Open Scope string_scope.
Local Open Scope nat_scope.

(* ------------------------------------------------------------------ *)
(** ** Python strings *)

Module PyStr.

(** [str.lower] on the code points 0..255: A-Z, and the Latin-1 capitals
    U+00C0..U+00DE except the multiplication sign U+00D7. *)
Definition lower_char (c : ascii) : ascii :=
  let n := nat_of_ascii c in
  if ((65 <=? n) && (n <=? 90))
     || ((192 <=? n) && (n <=? 222) && negb (n =? 215))
  then ascii_of_nat (n + 32)
  else c.

Fixpoint lower (s : string) : string :=
  match s with
  | EmptyString => EmptyString
  | String c s' => String (lower_char c) (lower s')
  end.

(** [str.upper] on the same range; U+00B5, U+00DF and U+00FF have no
    one-character capital below 256 and are outside the model. *)
Definition upper_char (c : ascii) : ascii :=
  let n := nat_of_ascii c in
  if ((97 <=? n) && (n <=? 122))
     || ((224 <=? n) && (n <=? 254) && negb (n =? 247))
  then ascii_of_nat (n - 32)
  else c.

Fixpoint upper (s : string) : string :=
  match s with
  | EmptyString => EmptyString
  | String c s' => String (upper_char c) (upper s')
  end.

(** [str.isspace] for one code point below 256. *)
Definition isspace (c : ascii) : bool :=
  let n := nat_of_ascii c in
  ((9 <=? n) && (n <=? 13)) || ((28 <=? n) && (n <=? 32))
  || (n =? 133) || (n =? 160).

Fixpoint lstrip_by (p : ascii -> bool) (s : string) : string :=
  match s with
  | EmptyString => EmptyString
  | String c s' => if p c then lstrip_by p s' else s
  end.

Fixpoint rstrip_by (p : ascii -> bool) (s : string) : string :=
  match s with
  | EmptyString => EmptyString
  | String c s' =>
      match rstrip_by p s' with
      | EmptyString => if p c then EmptyString else String c EmptyString
      | r => String c r
      end
  end.

(** [s.strip()] *)
Definition strip (s : string) : string :=
  rstrip_by isspace (lstrip_by isspace s).

Fixpoint mem_char (c : ascii) (chars : string) : bool :=
  match chars with
  | EmptyString => false
  | String d chars' => Ascii.eqb c d || mem_char c chars'
  end.

(** [s.strip(chars)] *)
Definition strip_chars (chars s : string) : string :=
  rstrip_by (fun c => mem_char c chars)
            (lstrip_by (fun c => mem_char c chars) s).

(** [q in s] *)
Fixpoint contains (q s : string) : bool :=
  String.prefix q s
  || match s with
     | EmptyString => false
     | String _ s' => contains q s'
     end.

(** Truth value of a string: [if s:] *)
Definition truthy (s : string) : bool :=
  match s with EmptyString => false | _ => true end.

(** [s[:n]] *)
Fixpoint take (n : nat) (s : string) : string :=
  match n, s with
  | O, _ => EmptyString
  | _, EmptyString => EmptyString
  | S n', String c s' => String c (take n' s')
  end.

(** [c * n] *)
Fixpoint repeat (c : ascii) (n : nat) : string :=
  match n with
  | O => EmptyString
  | S n' => String c (repeat c n')
  end.

(** [''.join(chunks)] *)
Definition join (chunks : list string) : string :=
  fold_right String.append EmptyString chunks.

Definition count_char (c : ascii) (s : string) : nat :=
  List.length (List.filter (Ascii.eqb c) (list_ascii_of_string s)).

End PyStr.

(* ------------------------------------------------------------------ *)
(** ** Exceptions *)

(** The two classes the code tells apart: [imaplib.IMAP4.error] (with its
    subclasses [abort] and [readonly]) and every other [Exception].  The
    string is [str(e)]. *)
Inductive PyExc : Type :=
| IMAP4_error (msg : string)
| Exception (msg : string).

Definition str_of_exc (e : PyExc) : string :=
  match e with
  | IMAP4_error msg => msg
  | Exception msg => msg
  end.

Inductive Exc (A : Type) : Type :=
| Return (a : A)
| Raise (e : PyExc).

Arguments Return {A} a.
Arguments Raise {A} e.

(* ------------------------------------------------------------------ *)
(** ** Naive datetimes *)

Module PyDate.
Local Open Scope Z_scope.

(** [date.min.toordinal()] and [date.max.toordinal()] (9999-12-31). *)
Definition MINORDINAL : Z := 1.
Definition MAXORDINAL : Z := 3652059.
Definition DAY_MICROS : Z := 86400000000.

Record datetime : Type := mk_datetime {
  toordinal : Z;       (* day number, 0001-01-01 is 1 *)
  micro_of_day : Z     (* ((hour*60 + minute)*60 + second)*10^6 + microsecond *)
}.

Definition valid (d : datetime) : Prop :=
  MINORDINAL <= toordinal d <= MAXORDINAL /\ 0 <= micro_of_day d < DAY_MICROS.

(** [a < b], [a <= b], [a > b] on naive datetimes *)
Definition ltb (a b : datetime) : bool :=
  (toordinal a <? toordinal b)
  || ((toordinal a =? toordinal b) && (micro_of_day a <? micro_of_day b)).

Definition leb (a b : datetime) : bool := negb (ltb b a).
Definition gtb (a b : datetime) : bool := ltb b a.

Definition eqb (a b : datetime) : bool :=
  (toordinal a =? toordinal b) && (micro_of_day a =? micro_of_day b).

(** [d + timedelta(days=n)]; outside [date.min .. date.max] Python raises
    [OverflowError]. *)
Definition add_days (d : datetime) (n : Z) : Exc datetime :=
  let o := toordinal d + n in
  if (MINORDINAL <=? o) && (o <=? MAXORDINAL)
  then Return (mk_datetime o (micro_of_day d))
  else Raise (Exception "date value out of range").

(** [d.replace(hour=h, minute=m, second=s, microsecond=0)] *)
Definition replace_time (d : datetime) (h m s : Z) : datetime :=
  mk_datetime (toordinal d) (((h * 60 + m) * 60 + s) * 1000000).

(** A date at midnight, as [datetime.strptime(_, '%Y-%m-%d')] returns. *)
Definition midnight (o : Z) : datetime := mk_datetime o 0.

End PyDate.
Export PyDate(datetime, mk_datetime, toordinal, micro_of_day).

(* ------------------------------------------------------------------ *)
(** ** Library calls on values the program computes *)

(** The three library functions the program applies to strings and dates of
    its own making.  Their results depend on the interpreter's locale and
    version, so the program is modelled over any implementation. *)
Class PyLib : Type := {
  (** [datetime.strptime(s, '%Y-%m-%d')] *)
  strptime_Y_m_d : string -> Exc datetime;
  (** [d.strftime('%d-%b-%Y')] *)
  strftime_d_b_Y : datetime -> string;
  (** [email.utils.parseaddr(s)] *)
  parseaddr : string -> Exc (string * string)
}.

(** One implementation, for running the model: the proleptic Gregorian
    calendar of [datetime.py], the C locale's month names with the year as
    the C library prints it, and [parseaddr] on the three shapes
    [Display Name <address>], [address (Display Name)] and [address] only;
    the other address forms of RFC 5322 (quoted names, groups, nested
    comments) are outside this implementation. *)
Module CLocale.
Local Open Scope Z_scope.

Definition is_leap (y : Z) : bool :=
  (y mod 4 =? 0) && (negb (y mod 100 =? 0) || (y mod 400 =? 0)).

Definition days_before_year (y : Z) : Z :=
  let y1 := y - 1 in y1 * 365 + y1 / 4 - y1 / 100 + y1 / 400.

Definition days_in_month (y m : Z) : Z :=
  if m =? 2 then (if is_leap y then 29 else 28)
  else if (m =? 4) || (m =? 6) || (m =? 9) || (m =? 11) then 30
  else 31.

Fixpoint days_before_month_aux (y : Z) (months : nat) : Z :=
  match months with
  | O => 0
  | S k => days_before_month_aux y k + days_in_month y (Z.of_nat (S k))
  end.

Definition days_before_month (y m : Z) : Z :=
  days_before_month_aux y (Z.to_nat (m - 1)).

Definition ymd2ord (y m d : Z) : Z :=
  days_before_year y + days_before_month y m + d.

(** [_ord2ymd] of [datetime.py] *)
Definition ord2ymd (n0 : Z) : Z * Z * Z :=
  let n := n0 - 1 in
  let n400 := n / 146097 in let n := n mod 146097 in
  let n100 := n / 36524 in let n := n mod 36524 in
  let n4 := n / 1461 in let n := n mod 1461 in
  let n1 := n / 365 in let n := n mod 365 in
  let year := n400 * 400 + 1 + n100 * 100 + n4 * 4 + n1 in
  if (n1 =? 4) || (n100 =? 4) then (year - 1, 12, 31)
  else
    let leapyear := (n1 =? 3) && (negb (n4 =? 24) || (n100 =? 3)) in
    let month := Z.shiftr (n + 50) 5 in
    let preceding :=
      days_before_month_aux (if leapyear then 4 else 1) (Z.to_nat (month - 1)) in
    if preceding >? n
    then let month' := month - 1 in
         let preceding' :=
           preceding - days_in_month (if leapyear then 4 else 1) month' in
         (year, month', n - preceding' + 1)
    else (year, month, n - preceding + 1).

Definition digit_val (c : ascii) : option Z :=
  let n := Z.of_nat (nat_of_ascii c) in
  if (48 <=? n) && (n <=? 57) then Some (n - 48) else None.

Fixpoint digits_val (acc : Z) (s : string) : option Z :=
  match s with
  | EmptyString => Some acc
  | String c s' =>
      match digit_val c with
      | Some v => digits_val (acc * 10 + v) s'
      | None => None
      end
  end.

Fixpoint split_on (sep : ascii) (cur : string) (s : string) : list string :=
  match s with
  | EmptyString => [cur]
  | String c s' =>
      if Ascii.eqb c sep then cur :: split_on sep EmptyString s'
      else split_on sep (cur ++ String c EmptyString)%string s'
  end.

(** The directive patterns of [_strptime]: [%Y] is four digits, [%m] is
    [1[0-2]|0[1-9]|[1-9]], [%d] is [3[01]|[12]\d|0[1-9]|[1-9]| [1-9]]. *)
Definition year_field (s : string) : option Z :=
  if Nat.eqb (String.length s) 4 then digits_val 0 s else None.

Definition month_field (s : string) : option Z :=
  if (1 <=? String.length s)%nat && (String.length s <=? 2)%nat then
    match digits_val 0 s with
    | Some v => if (1 <=? v) && (v <=? 12) then Some v else None
    | None => None
    end
  else None.

Definition day_field (s : string) : option Z :=
  let s' := match s with
            | String " " (String c EmptyString) => String c EmptyString
            | _ => s
            end in
  if (1 <=? String.length s')%nat && (String.length s' <=? 2)%nat then
    match digits_val 0 s' with
    | Some v => if (1 <=? v) && (v <=? 31) then Some v else None
    | None => None
    end
  else None.

Definition strptime (s : string) : Exc datetime :=
  match split_on "-" EmptyString s with
  | [ys; ms; ds] =>
      match year_field ys, month_field ms, day_field ds with
      | Some y, Some m, Some d =>
          if (1 <=? y) && (d <=? days_in_month y m)
          then Return (PyDate.midnight (ymd2ord y m d))
          else Raise (Exception "day is out of range for month")
      | _, _, _ => Raise (Exception "time data does not match format '%Y-%m-%d'")
      end
  | _ => Raise (Exception "time data does not match format '%Y-%m-%d'")
  end.

Definition digit_char (v : Z) : ascii := ascii_of_nat (Z.to_nat (48 + v mod 10)).

Definition two_digits (v : Z) : string :=
  String (digit_char (v / 10)) (String (digit_char v) EmptyString).

(** [%Y] as the C library of a Linux interpreter prints it: the decimal
    digits of the year, not padded (year 999 gives 999). *)
Definition year_digits (y : Z) : string :=
  DecimalString.NilEmpty.string_of_uint (N.to_uint (Z.to_N y)).

Definition month_abbr (m : Z) : string :=
  nth (Z.to_nat (m - 1))
      ["Jan"; "Feb"; "Mar"; "Apr"; "May"; "Jun";
       "Jul"; "Aug"; "Sep"; "Oct"; "Nov"; "Dec"]%string ""%string.

Definition strftime (d : datetime) : string :=
  let '(y, m, dd) := ord2ymd (toordinal d) in
  (two_digits dd ++ "-" ++ month_abbr m ++ "-" ++ year_digits y)%string.

Fixpoint before_char (sep : ascii) (s : string) : option (string * string) :=
  match s with
  | EmptyString => None
  | String c s' =>
      if Ascii.eqb c sep then Some (EmptyString, s')
      else match before_char sep s' with
           | Some (a, b) => Some (String c a, b)
           | None => None
           end
  end.

Definition parseaddr_simple (s : string) : Exc (string * string) :=
  match before_char "<" s with
  | Some (display, rest) =>
      match before_char ">" rest with
      | Some (addr, _) => Return (PyStr.strip display, addr)
      | None => Return (EmptyString, EmptyString)
      end
  | None =>
      match before_char "(" s with
      | Some (addr, rest) =>
          match before_char ")" rest with
          | Some (display, _) => Return (PyStr.strip display, PyStr.strip addr)
          | None => Return (EmptyString, PyStr.strip addr)
          end
      | None => Return (EmptyString, PyStr.strip s)
      end
  end.

#[export] Instance lib : PyLib := {
  strptime_Y_m_d := strptime;
  strftime_d_b_Y := strftime;
  parseaddr := parseaddr_simple
}.

End CLocale.

(* ------------------------------------------------------------------ *)
(** ** Records and messages *)

Definition dq : string := String (ascii_of_nat 34) EmptyString.   (* one double quote *)
Definition nl : string := String (ascii_of_nat 10) EmptyString.   (* "\n" *)

(** The dict built at the end of the fetch loop, with the key
    ['_search_blob'] that [_build_search_cache] adds later ([None] while the
    key is absent). *)
Record Email : Type := mk_email {
  name : string;
  email : string;
  subject : string;
  body : string;
  date : datetime;
  _search_blob : option string
}.

(** One [(part, encoding)] pair of [email.header.decode_header].  For a
    [bytes] part the two decodings the program may ask for are given with
    it: [part.decode(encoding)], which may raise, and
    [part.decode('utf-8', errors='ignore')], which cannot. *)
Inductive HeaderPart : Type :=
| StrPart (part : string)
| BytesPart (encoding : option string)
            (decode_encoding : Exc string)
            (decode_utf8_ignore : string).

(** [parsedate_to_datetime(raw)]: a naive value ([tzinfo is None]) or an
    aware one, given with [astimezone(tz=None).replace(tzinfo=None)]. *)
Inductive ParsedDate : Type :=
| Naive (dt : datetime)
| Aware (local : Exc datetime).

(** [part.get_payload(decode=True)] followed by
    [payload.decode('utf-8', errors='ignore')]: the call raises, the payload
    is [None] or empty, or the text is given. *)
Record Part : Type := mk_part {
  get_content_type : string;
  get_payload : Exc (option string)
}.

(** A parsed message: the headers the program reads, each with what the
    library answers on it, and the body structure. *)
Record Message : Type := mk_message {
  get_Date : option string;                   (* email_message.get('Date') *)
  parsedate_to_datetime : Exc ParsedDate;     (* on that header *)
  get_Subject : option (Exc (list HeaderPart)); (* get('Subject'), then email.header.decode_header *)
  get_From : option (Exc (list HeaderPart));
  is_multipart : bool;
  walk : list Part;                           (* email_message.walk() *)
  payload : Exc (option string)               (* single part: get_payload(decode=True), decoded *)
}.

(* ------------------------------------------------------------------ *)
(** ** Message normalizer *)

Fixpoint decode_parts (decoded_parts : list HeaderPart) (decoded_string : string)
  : Exc string :=
  match decoded_parts with
  | [] => Return decoded_string
  | StrPart part :: rest => decode_parts rest (decoded_string ++ part)
  | BytesPart encoding strict lenient :: rest =>
      match encoding with
      | Some (String _ _) =>                       (* if encoding: *)
          match strict with
          | Return text => decode_parts rest (decoded_string ++ text)
          | Raise e => Raise e
          end
      | _ => decode_parts rest (decoded_string ++ lenient)
      end
  end.

(** [EmailFilterApp.decode_header] *)
Definition decode_header (header_value : option (Exc (list HeaderPart))) : Exc string :=
  match header_value with
  | None => Return EmptyString
  | Some (Raise e) => Raise e
  | Some (Return decoded_parts) => decode_parts decoded_parts EmptyString
  end.

Definition MAX_LEN : nat := 2000.

(** The loop over [email_message.walk()]; leaving it by an exception keeps
    the chunks gathered so far ([except Exception: pass]). *)
Fixpoint walk_parts (parts : list Part) (remaining : nat) (body_chunks : list string)
  : list string :=
  match parts with
  | [] => body_chunks
  | part :: rest =>
      if String.eqb (get_content_type part) "text/plain" then
        match get_payload part with
        | Raise _ => body_chunks
        | Return None => walk_parts rest remaining body_chunks
        | Return (Some text) =>
            if negb (PyStr.truthy text) then walk_parts rest remaining body_chunks
            else if remaining <=? String.length text
                 then body_chunks ++ [PyStr.take remaining text]      (* remaining = 0; break *)
                 else walk_parts rest (remaining - String.length text)
                                 (body_chunks ++ [text])
        end
      else walk_parts rest remaining body_chunks
  end.

(** [EmailFilterApp.extract_email_body] *)
Definition extract_email_body (email_message : Message) : string :=
  let body_chunks :=
    if is_multipart email_message then walk_parts (walk email_message) MAX_LEN []
    else match payload email_message with
         | Return (Some text) => [PyStr.take MAX_LEN text]
         | _ => []
         end in
  PyStr.join body_chunks.

(** [EmailFilterApp.parse_sender] *)
Definition parse_sender `{PyLib} (from_header : string) : string * string :=
  match parseaddr from_header with
  | Return (nm, addr) =>
      ((if PyStr.truthy nm then PyStr.strip_chars dq (PyStr.strip nm) else addr), addr)
  | Raise _ => (from_header, from_header)
  end.

(** The [try] block that computes [msg_dt]. *)
Definition msg_dt_of (email_message : Message) : option datetime :=
  match get_Date email_message with
  | Some (String _ _) =>                         (* if msg_date_raw: *)
      match parsedate_to_datetime email_message with
      | Return (Naive dt) => Some dt
      | Return (Aware (Return dt)) => Some dt
      | Return (Aware (Raise _)) => None
      | Raise _ => None
      end
  | _ => None
  end.

(** [body[:200] + '...' if len(body) > 200 else body] *)
Definition body_preview (body : string) : string :=
  if 200 <? String.length body then PyStr.take 200 body ++ "..." else body.

(** [msg_dt or start_date] *)
Definition date_or (msg_dt : option datetime) (start_date : datetime) : datetime :=
  match msg_dt with Some dt => dt | None => start_date end.

(** One turn of the fetch loop after the message was parsed: the record
    appended to [emails_data], or the exception that leaves the loop. *)
Definition build_record `{PyLib} (start_date : datetime) (email_message : Message)
  : Exc Email :=
  let msg_dt := msg_dt_of email_message in
  match decode_header (get_Subject email_message) with
  | Raise e => Raise e
  | Return subject =>
      match decode_header (get_From email_message) with
      | Raise e => Raise e
      | Return from_header =>
          let body := extract_email_body email_message in
          let '(nm, email_addr) := parse_sender from_header in
          Return (mk_email nm email_addr subject (body_preview body)
                           (date_or msg_dt start_date) None)
      end
  end.

(* ------------------------------------------------------------------ *)
(** ** [list.sort(key=..., reverse=True)] *)

Section PySort.
Context {A : Type} (key : A -> datetime).

(** Stable insertion by [<] on the keys: [x] goes before the first element
    that is not smaller than it. *)
Fixpoint insert_stable (x : A) (l : list A) : list A :=
  match l with
  | [] => [x]
  | y :: l' =>
      if PyDate.ltb (key y) (key x) then y :: insert_stable x l'
      else x :: l
  end.

Definition sort_stable (l : list A) : list A := fold_right insert_stable [] l.

(** CPython sorts with [reverse=True] by reversing the list, sorting it
    in ascending order with its stable sort, and reversing the result. *)
Definition sort_reverse (l : list A) : list A := rev (sort_stable (rev l)).
End PySort.

(* ------------------------------------------------------------------ *)
(** ** Application state *)

Inductive FilterType : Type := All | Sender | Subject | Body.

(** The values of the read-only combobox. *)
Definition filter_type_name (t : FilterType) : string :=
  match t with
  | All => "All"
  | Sender => "Sender"
  | Subject => "Subject"
  | Body => "Body"
  end.

(** What the user is shown: message boxes and notifications. *)
Inductive UIOut : Type :=
| showerror (title message : string)
| showinfo (title message : string)
| showwarning (title message : string)
| show_notification (message kind : string) (duration : nat).

(** A started worker thread: the values its closure captured. *)
Record Job : Type := mk_job {
  use_demo : bool;
  job_start_date : datetime;
  job_end_date : datetime
}.

(** A callback handed to [root.after(0, ...)]. *)
Inductive Callback : Type :=
| DoneCallback (data : list Email) (status : string)
    (* lambda: self._on_fetch_done(data, None, status) *)
| ErrorCallback (exc : PyExc).
    (* lambda: self._on_fetch_done([], exc, "Error occurred") *)

Record App : Type := mk_app {
  emails_data : list Email;
  filtered_emails : list Email;
  _last_filter : option string;
  filter_type_var : option FilterType;     (* absent until the dashboard is built *)
  search_var : string;
  start_date_var : string;
  end_date_var : string;
  demo_mode_var : bool;
  email_var : string;
  password_var : string;
  server_var : string;
  fetch_button_disabled : bool;
  progress_bar_running : bool;
  status_label : string;
  threads : list Job;                      (* workers started and not yet finished *)
  after_queue : list Callback;             (* callbacks scheduled and not yet run *)
  ui : list UIOut
}.

Definition set_emails_data (v : list Email) (a : App) : App :=
  mk_app v (filtered_emails a) (_last_filter a) (filter_type_var a) (search_var a)
         (start_date_var a) (end_date_var a) (demo_mode_var a) (email_var a)
         (password_var a) (server_var a) (fetch_button_disabled a)
         (progress_bar_running a) (status_label a) (threads a) (after_queue a) (ui a).

Definition set_filtered_emails (v : list Email) (a : App) : App :=
  mk_app (emails_data a) v (_last_filter a) (filter_type_var a) (search_var a)
         (start_date_var a) (end_date_var a) (demo_mode_var a) (email_var a)
         (password_var a) (server_var a) (fetch_button_disabled a)
         (progress_bar_running a) (status_label a) (threads a) (after_queue a) (ui a).

Definition set_last_filter (v : option string) (a : App) : App :=
  mk_app (emails_data a) (filtered_emails a) v (filter_type_var a) (search_var a)
         (start_date_var a) (end_date_var a) (demo_mode_var a) (email_var a)
         (password_var a) (server_var a) (fetch_button_disabled a)
         (progress_bar_running a) (status_label a) (threads a) (after_queue a) (ui a).

Definition set_filter_type_var (v : option FilterType) (a : App) : App :=
  mk_app (emails_data a) (filtered_emails a) (_last_filter a) v (search_var a)
         (start_date_var a) (end_date_var a) (demo_mode_var a) (email_var a)
         (password_var a) (server_var a) (fetch_button_disabled a)
         (progress_bar_running a) (status_label a) (threads a) (after_queue a) (ui a).

Definition set_search_var (v : string) (a : App) : App :=
  mk_app (emails_data a) (filtered_emails a) (_last_filter a) (filter_type_var a) v
         (start_date_var a) (end_date_var a) (demo_mode_var a) (email_var a)
         (password_var a) (server_var a) (fetch_button_disabled a)
         (progress_bar_running a) (status_label a) (threads a) (after_queue a) (ui a).

(** The entry fields and the demo switch of the first screen. *)
Record Inputs : Type := mk_inputs {
  in_start_date : string;
  in_end_date : string;
  in_demo_mode : bool;
  in_email : string;
  in_password : string;
  in_server : string
}.

Definition set_inputs (i : Inputs) (a : App) : App :=
  mk_app (emails_data a) (filtered_emails a) (_last_filter a) (filter_type_var a)
         (search_var a) (in_start_date i) (in_end_date i) (in_demo_mode i)
         (in_email i) (in_password i) (in_server i) (fetch_button_disabled a)
         (progress_bar_running a) (status_label a) (threads a) (after_queue a) (ui a).

Definition set_fetch_button_disabled (v : bool) (a : App) : App :=
  mk_app (emails_data a) (filtered_emails a) (_last_filter a) (filter_type_var a)
         (search_var a) (start_date_var a) (end_date_var a) (demo_mode_var a)
         (email_var a) (password_var a) (server_var a) v
         (progress_bar_running a) (status_label a) (threads a) (after_queue a) (ui a).

Definition set_progress_bar_running (v : bool) (a : App) : App :=
  mk_app (emails_data a) (filtered_emails a) (_last_filter a) (filter_type_var a)
         (search_var a) (start_date_var a) (end_date_var a) (demo_mode_var a)
         (email_var a) (password_var a) (server_var a) (fetch_button_disabled a)
         v (status_label a) (threads a) (after_queue a) (ui a).

Definition set_status_label (v : string) (a : App) : App :=
  mk_app (emails_data a) (filtered_emails a) (_last_filter a) (filter_type_var a)
         (search_var a) (start_date_var a) (end_date_var a) (demo_mode_var a)
         (email_var a) (password_var a) (server_var a) (fetch_button_disabled a)
         (progress_bar_running a) v (threads a) (after_queue a) (ui a).

Definition set_threads (v : list Job) (a : App) : App :=
  mk_app (emails_data a) (filtered_emails a) (_last_filter a) (filter_type_var a)
         (search_var a) (start_date_var a) (end_date_var a) (demo_mode_var a)
         (email_var a) (password_var a) (server_var a) (fetch_button_disabled a)
         (progress_bar_running a) (status_label a) v (after_queue a) (ui a).

Definition set_after_queue (v : list Callback) (a : App) : App :=
  mk_app (emails_data a) (filtered_emails a) (_last_filter a) (filter_type_var a)
         (search_var a) (start_date_var a) (end_date_var a) (demo_mode_var a)
         (email_var a) (password_var a) (server_var a) (fetch_button_disabled a)
         (progress_bar_running a) (status_label a) (threads a) v (ui a).

Definition show (o : UIOut) (a : App) : App :=
  mk_app (emails_data a) (filtered_emails a) (_last_filter a) (filter_type_var a)
         (search_var a) (start_date_var a) (end_date_var a) (demo_mode_var a)
         (email_var a) (password_var a) (server_var a) (fetch_button_disabled a)
         (progress_bar_running a) (status_label a) (threads a) (after_queue a)
         (ui a ++ [o]).

(** [EmailFilterApp.__init__]; both date fields start at today's date. *)
Definition init (today_str : string) : App :=
  mk_app [] [] None None "" today_str today_str false "" "" "Gmail"
         false false "" [] [] [].

(* ------------------------------------------------------------------ *)
(** ** Mail session *)

(** What [imaplib] hands back for one fetched message. *)
Inductive MsgData : Type :=
| NoData                                (* msg_data, or msg_data[0], is falsy *)
| Item (message_from_bytes : Exc Message).   (* email.message_from_bytes(msg_data[0][1]) *)

(** The answers of the mail library and server, call by call. *)
Record Server : Type := mk_server {
  IMAP4_SSL : string -> Z -> Exc unit;
  login : string -> string -> Exc unit;
  select : Exc string;                                  (* status of select('INBOX', readonly=True) *)
  search : string -> Exc (string * option string);      (* status, messages[0] *)
  fetch : string -> Exc (string * MsgData)              (* status, msg_data *)
}.

(** Calls made on the connection, in order. *)
Inductive Command : Type :=
| CONNECT (host : string) (port : Z)
| LOGIN (user password : string)
| SELECT_INBOX_READONLY
| SEARCH (criteria : string)
| FETCH (email_id : string)
| CLOSE
| LOGOUT.

(** A computation that may raise and that records the calls it makes. *)
Definition Session (A : Type) : Type := list Command -> Exc A * list Command.

Definition ret {A} (a : A) : Session A := fun tr => (Return a, tr).
Definition throw {A} (e : PyExc) : Session A := fun tr => (Raise e, tr).
Definition lift {A} (x : Exc A) : Session A := fun tr => (x, tr).
Definition call {A} (c : Command) (answer : Exc A) : Session A :=
  fun tr => (answer, (tr ++ [c])%list).
Definition bind {A B} (m : Session A) (k : A -> Session B) : Session B :=
  fun tr => match m tr with
            | (Return a, tr') => k a tr'
            | (Raise e, tr') => (Raise e, tr')
            end.

Notation "x <- m ;; k" := (bind m (fun x => k))
  (at level 61, m at next level, right associativity).
Notation "' p <- m ;; k" := (bind m (fun x => let p := x in k))
  (at level 61, p pattern, m at next level, right associativity).

(** [id_bytes.split()] *)
Definition is_bytes_space (c : ascii) : bool :=
  let n := nat_of_ascii c in ((9 <=? n) && (n <=? 13)) || (n =? 32).

Fixpoint split_ws (cur : string) (s : string) : list string :=
  match s with
  | EmptyString => if PyStr.truthy cur then [cur] else []
  | String c s' =>
      if is_bytes_space c
      then (if PyStr.truthy cur then cur :: split_ws EmptyString s'
            else split_ws EmptyString s')
      else split_ws (cur ++ String c EmptyString) s'
  end.

Definition split (id_bytes : string) : list string := split_ws EmptyString id_bytes.

(** [EmailFilterApp.get_server_config] *)
Definition get_server_config (self : App) : string * Z :=
  if String.eqb (server_var self) "Outlook" then ("outlook.office365.com", 993%Z)
  else if String.eqb (server_var self) "Custom" then ("imap.example.com", 993%Z)
  else ("imap.gmail.com", 993%Z).

Section Retrieval.
Context `{PyLib}.

(** The [for email_id in email_ids] loop. *)
Fixpoint fetch_loop (mail : Server) (start_date : datetime)
         (email_ids : list string) (emails_data : list Email)
  : Session (list Email) :=
  match email_ids with
  | [] => ret emails_data
  | email_id :: rest =>
      '(status, msg_data) <- call (FETCH email_id) (fetch mail email_id) ;;
      if negb (String.eqb status "OK") then fetch_loop mail start_date rest emails_data
      else match msg_data with
           | NoData => fetch_loop mail start_date rest emails_data          (* continue *)
           | Item (Raise _) => fetch_loop mail start_date rest emails_data  (* continue *)
           | Item (Return email_message) =>
               record <- lift (build_record start_date email_message) ;;
               fetch_loop mail start_date rest (emails_data ++ [record])%list
           end
  end.

Definition search_criteria (since_str before_str : string) : string :=
  "(SINCE " ++ dq ++ since_str ++ dq ++ " BEFORE " ++ dq ++ before_str ++ dq ++ ")".

(** The [try] block from [mail.login] on. *)
Definition session_body (mail : Server) (email_user email_pass : string)
           (start_date end_date : datetime) : Session (list Email) :=
  _ <- call (LOGIN email_user email_pass) (login mail email_user email_pass) ;;
  status <- call SELECT_INBOX_READONLY (select mail) ;;
  if negb (String.eqb status "OK") then throw (Exception "Unable to select INBOX")
  else
    let since_str := strftime_d_b_Y start_date in
    before_date <- lift (PyDate.add_days end_date 1) ;;
    let before_str := strftime_d_b_Y before_date in
    let criteria := search_criteria since_str before_str in
    '(status, id_bytes) <- call (SEARCH criteria) (search mail criteria) ;;
    if negb (String.eqb status "OK") then throw (Exception "IMAP search failed")
    else match id_bytes with
         | None | Some EmptyString => ret []                 (* if not id_bytes *)
         | Some ids =>
             emails_data <- fetch_loop mail start_date (split ids) [] ;;
             ret (sort_reverse date emails_data)
         end.

(** The two [except] clauses. *)
Definition reraise (e : PyExc) : PyExc :=
  match e with
  | IMAP4_error msg => Exception ("IMAP authentication/search error: " ++ msg)
  | Exception msg => Exception ("IMAP connection failed: " ++ msg)
  end.

(** [EmailFilterApp.fetch_real_emails] *)
Definition fetch_real_emails (self : App) (mail : Server)
           (start_date end_date : datetime) : Session (list Email) :=
  let email_user := PyStr.strip (email_var self) in
  let email_pass := PyStr.strip (password_var self) in
  if negb (PyStr.truthy email_user) || negb (PyStr.truthy email_pass)
  then throw (Exception "Email and password are required when demo mode is off.")
  else
    let '(host, port) := get_server_config self in
    fun tr =>
      match call (CONNECT host port) (IMAP4_SSL mail host port) tr with
      | (Raise e, tr') => (Raise (reraise e), tr')          (* mail is None: nothing to close *)
      | (Return _, tr') =>
          match session_body mail email_user email_pass start_date end_date tr' with
          | (Return emails, tr'') => (Return emails, (tr'' ++ [CLOSE; LOGOUT])%list)
          | (Raise e, tr'') => (Raise (reraise e), (tr'' ++ [CLOSE; LOGOUT])%list)
          end
      end.
End Retrieval.

(* ------------------------------------------------------------------ *)
(** ** Demo data *)

(** [demo_data._generate_large_dataset], given the records it draws, and
    [demo_data.load_demo_emails_between]. *)
Definition generate_large_dataset (drawn : list Email) : list Email :=
  sort_reverse date drawn.

Definition load_demo_emails_between (dataset : list Email)
           (start_date end_date : datetime) : list Email :=
  let start_key := PyDate.replace_time start_date 0 0 0 in
  let end_key := PyDate.replace_time end_date 23 59 59 in
  filter (fun item => PyDate.leb start_key (date item) && PyDate.leb (date item) end_key)
         dataset.

(* ------------------------------------------------------------------ *)
(** ** Filter index *)

(** [f"{name}\n{email_addr}\n{subject}\n{body}".lower()] *)
Definition search_blob (item : Email) : string :=
  PyStr.lower (name item ++ nl ++ email item ++ nl ++ subject item ++ nl ++ body item).

Definition set_search_blob (blob : option string) (item : Email) : Email :=
  mk_email (name item) (email item) (subject item) (body item) (date item) blob.

(** [EmailFilterApp._build_search_cache].  Its [except] branch needs
    [item.get] or [str.lower] to raise, which they do not on these dicts. *)
Definition _build_search_cache (emails : list Email) : list Email :=
  map (fun item => set_search_blob (Some (search_blob item)) item) emails.

(** The inner function [matches] of [apply_search_filter]. *)
Definition matches (q : string) (filter_type : FilterType) (item : Email) : bool :=
  match filter_type with
  | Sender => PyStr.contains q (PyStr.lower (name item))
              || PyStr.contains q (PyStr.lower (email item))
  | Subject => PyStr.contains q (PyStr.lower (subject item))
  | Body => PyStr.contains q (PyStr.lower (body item))
  | All =>
      let blob := match _search_blob item with
                  | Some blob => blob
                  | None => search_blob item
                  end in
      PyStr.contains q blob
  end.

Definition string_of_nat (n : nat) : string :=
  DecimalString.NilEmpty.string_of_uint (Nat.to_uint n).

Definition option_string_eqb (a : option string) (b : string) : bool :=
  match a with
  | Some a' => String.eqb a' b
  | None => false
  end.

(** [EmailFilterApp.apply_search_filter]; [populate_table] only redraws. *)
Definition apply_search_filter (self : App) (query : string) : App :=
  let q := PyStr.lower (PyStr.strip query) in
  let filter_type := match filter_type_var self with
                     | Some t => t
                     | None => All
                     end in
  let current_filter := q ++ "|" ++ filter_type_name filter_type in
  if option_string_eqb (_last_filter self) current_filter then self
  else
    let self := set_last_filter (Some current_filter) self in
    if negb (PyStr.truthy q) then set_filtered_emails (emails_data self) self
    else
      let self := set_filtered_emails (filter (matches q filter_type) (emails_data self))
                                      self in
      match filtered_emails self with
      | _ :: _ =>
          show (show_notification
                  ("Found " ++ string_of_nat (List.length (filtered_emails self))
                            ++ " matching emails") "success" 2000) self
      | [] => show (show_notification "No emails match your search" "warning" 3000) self
      end.

(* ------------------------------------------------------------------ *)
(** ** Fetch coordinator *)

Definition _show_loading (text : string) (self : App) : App :=
  set_progress_bar_running true (set_status_label text self).

Definition _hide_loading (self : App) : App := set_progress_bar_running false self.

(** [EmailFilterApp._on_fetch_done] *)
Definition _on_fetch_done (self : App) (data : list Email) (error : option PyExc)
           (status_text : string) : App :=
  let self := _hide_loading self in
  let self := set_fetch_button_disabled false self in
  match error with
  | Some e =>
      let err := str_of_exc e in
      let self :=
        if PyStr.contains "AUTHENTICATIONFAILED" (PyStr.upper err) then
          let self := show (show_notification "Authentication failed - check credentials"
                                              "error" 5000) self in
          show (showerror "Authentication Failed"
                  ("Login rejected by server." ++ nl ++ nl ++ "Provider: "
                   ++ server_var self ++ nl ++ nl ++ err ++ nl ++ nl
                   ++ "For Gmail, enable IMAP and use an App Password." ++ nl
                   ++ "For Outlook/Office365, Basic Auth may be disabled; "
                   ++ "try an App Password or use Demo Data.")) self
        else
          let self := show (show_notification
                              ("Fetch failed: " ++ PyStr.take 50 err ++ "...")
                              "error" 5000) self in
          show (showerror "Error" ("Failed to fetch emails: " ++ err)) self in
      set_status_label "Error occurred" self
  | None =>
      let self := set_emails_data (_build_search_cache data) self in
      let self := set_filtered_emails (emails_data self) self in
      let self := set_status_label status_text self in
      match emails_data self with
      | [] =>
          let self := show (show_notification "No emails found for selected date range"
                                              "warning" 4000) self in
          show (showinfo "No Emails" "No emails found for the selected date range.") self
      | _ :: _ =>
          let n := string_of_nat (List.length (emails_data self)) in
          let self := show (show_notification ("Successfully fetched " ++ n ++ " emails")
                                              "success" 3000) self in
          show (showinfo "Success" ("Successfully fetched " ++ n ++ " emails.")) self
      end
  end.

(** What the worker thread finds outside the program. *)
Record World : Type := mk_world {
  mail_server : Server;
  demo_dataset : list Email       (* demo_data.get_demo_dataset() *)
}.

Section Coordinator.
Context `{PyLib}.

(** [EmailFilterApp.fetch_emails] *)
Definition fetch_emails (self : App) : App :=
  if negb (PyStr.truthy (start_date_var self)) || negb (PyStr.truthy (end_date_var self))
  then show (showerror "Error" "Please select both start and end dates.") self
  else
    match strptime_Y_m_d (start_date_var self), strptime_Y_m_d (end_date_var self) with
    | Return start_date, Return end_date =>
        if PyDate.gtb start_date end_date
        then show (showerror "Error" "Start date cannot be after end date.") self
        else
          let self := _show_loading "Fetching emails..." self in
          let self := set_fetch_button_disabled true self in
          set_threads (threads self ++ [mk_job (demo_mode_var self) start_date end_date])
                      self
    | _, _ => show (showerror "Error" "Invalid date format. Use YYYY-MM-DD.") self
    end.

(** The inner function [worker]: the callback it schedules. *)
Definition worker (self : App) (w : World) (job : Job) : Callback :=
  if use_demo job then
    let data := load_demo_emails_between (demo_dataset w)
                  (job_start_date job) (job_end_date job) in
    DoneCallback data ("Demo: Found " ++ string_of_nat (List.length data) ++ " emails")
  else
    match fst (fetch_real_emails self (mail_server w)
                 (job_start_date job) (job_end_date job) []) with
    | Return data =>
        DoneCallback data ("Found " ++ string_of_nat (List.length data) ++ " emails")
    | Raise exc => ErrorCallback exc
    end.

(** Running a scheduled callback.  The error callback reads [exc], the
    name bound by [except Exception as exc], which Python unbinds when the
    [except] block ends: if the worker has got that far the lambda raises
    [NameError] and [_on_fetch_done] is not called ([exc_bound = false]). *)
Definition run_callback (exc_bound : bool) (cb : Callback) (self : App) : App :=
  match cb with
  | DoneCallback data status => _on_fetch_done self data None status
  | ErrorCallback exc =>
      if exc_bound then _on_fetch_done self [] (Some exc) "Error occurred"
      else self
  end.

Fixpoint remove_nth {A} (i : nat) (l : list A) : list A :=
  match i, l with
  | _, [] => []
  | O, _ :: l' => l'
  | S i', x :: l' => x :: remove_nth i' l'
  end.

(** [EmailFilterApp.create_dashboard_screen], as far as the state goes.
    Closing the dashboard window changes none of the fields kept here, so
    the step below stands for closing it, if open, and building it anew. *)
Definition create_dashboard_screen (self : App) : App :=
  let self := set_filter_type_var (Some All) self in
  let self := set_search_var "" self in
  set_filtered_emails (emails_data self) self.

(** What can happen to a running application. *)
Inductive Event : Type :=
| EditInputs (i : Inputs)            (* the user edits the first screen *)
| ClickFetch                         (* the fetch button *)
| KeyFetch                           (* <Return> or <Control-r> *)
| WorkerFinishes (i : nat) (w : World)
| RunCallback (exc_bound : bool)     (* Tk runs the oldest scheduled callback *)
| OpenDashboard
| SelectFilterType (t : FilterType)  (* <<ComboboxSelected>> *)
| SearchFor (query : string)         (* typing, <Return>, clear, set_search_query *)
| Refresh (window_exists : bool).    (* F5 or the refresh button: refresh_dashboard *)

Definition step (self : App) (ev : Event) : App :=
  match ev with
  | EditInputs i => set_inputs i self
  | ClickFetch => if fetch_button_disabled self then self else fetch_emails self
  | KeyFetch => fetch_emails self
  | WorkerFinishes i w =>
      match nth_error (threads self) i with
      | Some job =>
          set_after_queue (after_queue self ++ [worker self w job])
                          (set_threads (remove_nth i (threads self)) self)
      | None => self
      end
  | RunCallback exc_bound =>
      match after_queue self with
      | cb :: rest => run_callback exc_bound cb (set_after_queue rest self)
      | [] => self
      end
  | OpenDashboard =>
      match emails_data self with
      | [] => show (showwarning "No Data" "Please fetch emails first.") self
      | _ :: _ => create_dashboard_screen self
      end
  | SelectFilterType t =>
      let self := set_filter_type_var (Some t) self in
      apply_search_filter self (search_var self)
  | SearchFor query => apply_search_filter (set_search_var query self) query
  | Refresh window_exists =>
      (* if self.dashboard_window and self.dashboard_window.winfo_exists() *)
      if window_exists
      then show (showinfo "Refresh" "Dashboard refreshed successfully.")
                (apply_search_filter self (search_var self))
      else self
  end.

Definition run (self : App) (evs : list Event) : App := fold_left step evs self.

Definition reachable (today_str : string) (self : App) : Prop :=
  exists evs, self = run (init today_str) evs.
End Coordinator.

(* ------------------------------------------------------------------ *)
(** ** Sample inputs *)

Module Sample.

Definition day_2024_01_01 : datetime := PyDate.midnight 738886.

Definition at_time (h m : Z) : datetime :=
  mk_datetime 738886 (((h * 60 + m) * 60) * 1000000)%Z.

Definition inputs : Inputs :=
  mk_inputs "2024-01-01" "2024-01-01" false "user@example.com" "app-password" "Gmail".

Definition app : App := set_inputs inputs (init "2024-01-01").

Definition text_message (date_header : option string) (parsed : Exc ParsedDate)
           (subj from text : string) : Message :=
  mk_message date_header parsed
             (Some (Return [StrPart subj])) (Some (Return [StrPart from]))
             false [] (Return (Some text)).

Definition invoice : Message :=
  text_message (Some "Mon, 01 Jan 2024 09:00:00 -0000") (Return (Naive (at_time 9 0)))
               "Invoice Attached" "Alice <alice@example.com>" "Please find the invoice.".

Definition meeting : Message :=
  text_message (Some "Mon, 01 Jan 2024 12:30:00 -0000") (Return (Naive (at_time 12 30)))
               "Meeting" "bob@example.com" "See you at two.".

Definition report : Message :=
  text_message (Some "Mon, 01 Jan 2024 09:00:00 -0000") (Return (Naive (at_time 9 0)))
               "Weekly Report" "Carol <carol@example.com>" "Numbers are up.".

Definition bad_date : Message :=
  text_message (Some "yesterday-ish") (Raise (Exception "Invalid date value or format"))
               "Budget" "dave@example.com" "Approve please.".

Definition no_date : Message :=
  text_message None (Raise (Exception "unused"))
               "Welcome" "erin@example.com" "Hello.".

(** Subject [=?utf-8?b?/w==?=]: one part, the byte 0xff declared UTF-8. *)
Definition bad_subject : Message :=
  mk_message (Some "Mon, 01 Jan 2024 10:00:00 -0000") (Return (Naive (at_time 10 0)))
             (Some (Return [BytesPart (Some "utf-8")
                              (Raise (Exception
                                 "'utf-8' codec can't decode byte 0xff in position 0: invalid start byte"))
                              ""]))
             (Some (Return [StrPart "frank@example.com"]))
             false [] (Return (Some "Hi.")).

Definition long_body_a : Message :=
  text_message (Some "Mon, 01 Jan 2024 08:00:00 -0000") (Return (Naive (at_time 8 0)))
               "Notes" "gina@example.com" (PyStr.repeat "a" 201).

Definition long_body_b : Message :=
  text_message (Some "Mon, 01 Jan 2024 08:00:00 -0000") (Return (Naive (at_time 8 0)))
               "Notes" "gina@example.com" (PyStr.repeat "a" 200 ++ "b").

Fixpoint lookup (email_id : string) (box : list (string * Message))
  : Exc (string * MsgData) :=
  match box with
  | [] => Return ("NO", NoData)
  | (k, m) :: box' =>
      if String.eqb k email_id then Return ("OK", Item (Return m))
      else lookup email_id box'
  end.

(** A server that accepts the session and holds the given messages. *)
Definition server (ids : string) (box : list (string * Message)) : Server :=
  mk_server (fun _ _ => Return tt) (fun _ _ => Return tt) (Return "OK")
            (fun _ => Return ("OK", Some ids))
            (fun email_id => lookup email_id box).

Definition inbox : Server :=
  server "1 2 3 4 5"
         [("1", invoice); ("2", bad_date); ("3", meeting); ("4", report); ("5", no_date)].

Definition inbox_with_bad_subject : Server :=
  server "1 2 3" [("1", invoice); ("2", bad_subject); ("3", meeting)].

Definition login_rejected : Server :=
  mk_server (fun _ _ => Return tt)
            (fun _ _ => Raise (IMAP4_error "b'[AUTHENTICATIONFAILED] Invalid credentials (Failure)'"))
            (Return "OK") (fun _ => Return ("OK", None)) (fun _ => Return ("NO", NoData)).

(** The connection drops during login: [imaplib.IMAP4.abort], a subclass of
    [imaplib.IMAP4.error]. *)
Definition login_aborted : Server :=
  mk_server (fun _ _ => Return tt)
            (fun _ _ => Raise (IMAP4_error "socket error: EOF"))
            (Return "OK") (fun _ => Return ("OK", None)) (fun _ => Return ("NO", NoData)).

(** The password field holds blanks only. *)
Definition no_password : App :=
  set_inputs (mk_inputs "2024-01-01" "2024-01-01" false "user@example.com" "   " "Gmail")
             (init "2024-01-01").

Definition search_rejected : Server :=
  mk_server (fun _ _ => Return tt) (fun _ _ => Return tt) (Return "OK")
            (fun _ => Raise (IMAP4_error "SEARCH command error: BAD [b'Could not parse command']"))
            (fun _ => Return ("NO", NoData)).

Definition search_refused : Server :=
  mk_server (fun _ _ => Return tt) (fun _ _ => Return tt) (Return "OK")
            (fun _ => Return ("NO", Some "")) (fun _ => Return ("NO", NoData)).

Definition connection_refused : Server :=
  mk_server (fun _ _ => Raise (Exception "[Errno 111] Connection refused"))
            (fun _ _ => Return tt) (Return "OK")
            (fun _ => Return ("OK", None)) (fun _ => Return ("NO", NoData)).

Definition world (mail : Server) : World := mk_world mail [].

Definition record (nm addr subj text : string) (d : datetime) : Email :=
  mk_email nm addr subj text d None.

End Sample.


(** The claim behind the widened search bound, as a property of one
    retrieval: a [SEARCH] whose [BEFORE] date is the day after [end_date]
    goes out on the connection. *)
Definition sends_widened_search `{PyLib} (self : App) (mail : Server)
           (start_date end_date : datetime) : Prop :=
  exists before_date,
    toordinal before_date = (toordinal end_date + 1)%Z /\
    In (SEARCH (search_criteria (strftime_d_b_Y start_date) (strftime_d_b_Y before_date)))
       (snd (fetch_real_emails self mail start_date end_date [])).

(** Messages fetched and parsed, in the order of their identifiers. *)
Definition fetched_message (mail : Server) (email_id : string) : option Message :=
  match fetch mail email_id with
  | Return (status, Item (Return email_message)) =>
      if String.eqb status "OK" then Some email_message else None
  | _ => None
  end.

Fixpoint fetched_messages (mail : Server) (email_ids : list string) : list Message :=
  match email_ids with
  | [] => []
  | email_id :: rest =>
      match fetched_message mail email_id with
      | Some m => m :: fetched_messages mail rest
      | None => fetched_messages mail rest
      end
  end.

Definition email_ids_of (id_bytes : option string) : list string :=
  match id_bytes with
  | Some ids => split ids
  | None => []
  end.


(** Newest first. *)
Definition sorted_desc (l : list Email) : Prop :=
  StronglySorted (fun a b => PyDate.leb (date b) (date a) = true) l.

(** The records carrying timestamp [t], in list order. *)
Definition with_date (t : datetime) (l : list Email) : list Email :=
  filter (fun r => PyDate.eqb (date r) t) l.

(** The collection and the filter state. *)
Definition same_results (a b : App) : Prop :=
  emails_data b = emails_data a /\ filtered_emails b = filtered_emails a
  /\ _last_filter b = _last_filter a /\ filter_type_var b = filter_type_var a
  /\ search_var b = search_var a.

(** The fixed text in front of the detail of a failure: up to the first
    colon. *)
Fixpoint before_colon (text : string) : string :=
  match text with
  | EmptyString => EmptyString
  | String c text' => if Ascii.eqb c ":" then EmptyString else String c (before_colon text')
  end.

Definition failure_label {A} (outcome : Exc A) : option string :=
  match outcome with
  | Raise e => Some (before_colon (str_of_exc e))
  | Return _ => None
  end.

(** The title of the error box [_on_fetch_done] raises for an outcome. *)
Definition error_dialog {A} (self : App) (outcome : Exc A) : option string :=
  match outcome with
  | Raise e =>
      match rev (ui (_on_fetch_done self [] (Some e) "Error occurred")) with
      | showerror title _ :: _ => Some title
      | _ => None
      end
  | Return _ => None
  end.

(** After a query with empty text, the visible list is the whole
    collection. *)
Definition empty_query_shows_all (self : App) : Prop :=
  forall t, _last_filter self = Some ("|" ++ filter_type_name t) ->
            filtered_emails self = emails_data self.

(* ------------------------------------------------------------------ *)
(** ** Connection test, date indicators and the table *)

(** The two [except] clauses of [test_imap_connection]. *)
Definition connection_test_error (e : PyExc) (self : App) : App :=
  match e with
  | IMAP4_error msg =>
      show (showerror "Authentication Failed"
              ("Server rejected login: " ++ msg ++ nl ++ nl
               ++ "If using Gmail, use an App Password. "
               ++ "If using Outlook 365, Basic Auth may be disabled.")) self
  | Exception msg =>
      show (showerror "Connection Error" ("Unable to connect: " ++ msg)) self
  end.

(** [EmailFilterApp.test_imap_connection] *)
Definition test_imap_connection (self : App) (mail : Server) (tr : list Command)
  : App * list Command :=
  if demo_mode_var self
  then (show (showinfo "Demo Mode Enabled"
                "Demo mode is enabled. Disable it to test a real connection.") self, tr)
  else
    let '(host, port) := get_server_config self in
    let email_user := PyStr.strip (email_var self) in
    let email_pass := PyStr.strip (password_var self) in
    if negb (PyStr.truthy email_user) || negb (PyStr.truthy email_pass)
    then (show (showwarning "Missing Credentials"
                  "Enter your email and password (or app password) to test.") self, tr)
    else
      match call (CONNECT host port) (IMAP4_SSL mail host port) tr with
      | (Raise e, tr') => (connection_test_error e self, tr')     (* mail is None *)
      | (Return _, tr') =>
          match (_ <- call (LOGIN email_user email_pass) (login mail email_user email_pass) ;;
                 call SELECT_INBOX_READONLY (select mail)) tr' with
          | (Return status, tr'') =>
              (if String.eqb status "OK"
               then show (showinfo "Connection Successful"
                            ("Connected to " ++ host ++ " and accessed INBOX successfully."))
                         self
               else show (showwarning "Partial Success"
                            "Logged in, but could not open INBOX. Check mailbox permissions.")
                         self,
               (tr'' ++ [CLOSE; LOGOUT])%list)
          | (Raise e, tr'') =>
              (connection_test_error e self, (tr'' ++ [CLOSE; LOGOUT])%list)
          end
      end.

(** The marks beside the two date fields: a tick, a cross, a warning sign. *)
Inductive Indicator : Type := Tick | Cross | WarningSign.

(** [EmailFilterApp.validate_dates], once the indicators exist: the texts of
    [start_date_indicator] and [end_date_indicator]. *)
Definition validate_dates `{PyLib} (self : App) : Indicator * Indicator :=
  match strptime_Y_m_d (start_date_var self), strptime_Y_m_d (end_date_var self) with
  | Return start_date, Return end_date =>
      if PyDate.gtb start_date end_date then (WarningSign, WarningSign) else (Tick, Tick)
  | Return _, Raise _ => (Tick, Cross)
  | Raise _, Return _ => (Cross, Tick)
  | Raise _, Raise _ => (Cross, Cross)
  end.

(** One row of the tree: the six column values and the zebra tag. *)
Record Row : Type := mk_row {
  row_name : string;
  row_email : string;
  row_start_date : string;
  row_end_date : string;
  row_subject : string;
  row_body : string;
  row_tag : string
}.

(** [email_data['body'][:100] + '...' if len(email_data['body']) > 100 else ...] *)
Definition body_cell (text : string) : string :=
  if 100 <? String.length text then PyStr.take 100 text ++ "..." else text.

(** The [for index, email_data in enumerate(active_list)] loop. *)
Fixpoint insert_rows (start_date end_date : string) (index : nat) (active_list : list Email)
  : list Row :=
  match active_list with
  | [] => []
  | email_data :: rest =>
      mk_row (name email_data) (email email_data) start_date end_date
             (subject email_data) (body_cell (body email_data))
             (if Nat.eqb (index mod 2) 0 then "evenrow" else "oddrow")
        :: insert_rows start_date end_date (S index) rest
  end.

(** What [populate_table] leaves on the screen: the rows, and the numbers
    behind the three statistics labels ([filtered_count_shown] tells whether
    the "Filtered" label gets a text or the empty string). *)
Record Table : Type := mk_table {
  tree_rows : list Row;
  total_emails : nat;
  unique_senders : nat;
  total_in_dataset : nat;
  filtered_count_shown : bool
}.

(** [EmailFilterApp.populate_table]: what one call writes into the tree and
    the labels, from the state it is called in.  The widgets keep it until
    the next call; [_on_fetch_done] and the early return of
    [apply_search_filter] do not call it. *)
Definition populate_table (self : App) : Table :=
  let active_list := sort_reverse date (filtered_emails self) in
  let total_emails := List.length active_list in
  let total_in_dataset := List.length (emails_data self) in
  mk_table (insert_rows (start_date_var self) (end_date_var self) 0 active_list)
           total_emails
           (List.length (nodup string_dec (map email active_list)))
           total_in_dataset
           (negb (Nat.eqb total_emails total_in_dataset)).

(** The table a call of [apply_search_filter] draws: none when the query
    and filter type are the ones applied last (the early [return]), else
    what [populate_table] writes once [filtered_emails] is set. *)
Definition apply_search_filter_draws (self : App) (query : string) : option Table :=
  let q := PyStr.lower (PyStr.strip query) in
  let filter_type := match filter_type_var self with
                     | Some t => t
                     | None => All
                     end in
  let current_filter := q ++ "|" ++ filter_type_name filter_type in
  if option_string_eqb (_last_filter self) current_filter then None
  else
    let self := set_last_filter (Some current_filter) self in
    if negb (PyStr.truthy q)
    then Some (populate_table (set_filtered_emails (emails_data self) self))
    else Some (populate_table
                 (set_filtered_emails (filter (matches q filter_type) (emails_data self))
                                      self)).

(** The table an event draws, if its handler reaches [populate_table]:
    building the dashboard does, a search does unless it returns early, and
    nothing else does; [_on_fetch_done] in particular installs the new
    records without drawing them. *)
Definition draws (self : App) (ev : Event) : option Table :=
  match ev with
  | OpenDashboard =>
      match emails_data self with
      | [] => None
      | _ :: _ => Some (populate_table (create_dashboard_screen self))
      end
  | SelectFilterType t =>
      apply_search_filter_draws (set_filter_type_var (Some t) self) (search_var self)
  | SearchFor query => apply_search_filter_draws (set_search_var query self) query
  | Refresh window_exists =>
      if window_exists then apply_search_filter_draws self (search_var self) else None
  | EditInputs _ | ClickFetch | KeyFetch | WorkerFinishes _ _ | RunCallback _ => None
  end.

(** What the tree and the statistics labels hold after a run of events:
    what the last call of [populate_table] wrote. *)
Fixpoint drawn_table `{PyLib} (shown : option Table) (self : App) (evs : list Event)
  : option Table :=
  match evs with
  | [] => shown
  | ev :: evs' =>
      drawn_table (match draws self ev with
                   | Some table => Some table
                   | None => shown
                   end)
                  (step self ev) evs'
  end.

(* ------------------------------------------------------------------ *)
(** ** Vocabulary of the further properties *)

(** The text of one header part, as [decode_header] takes it. *)
Definition part_text (p : HeaderPart) : Exc string :=
  match p with
  | StrPart part => Return part
  | BytesPart (Some (String _ _)) strict _ => strict
  | BytesPart _ _ lenient => Return lenient
  end.

(** The texts of the [text/plain] parts, up to the first part whose payload
    cannot be read. *)
Fixpoint plain_texts (parts : list Part) : list string :=
  match parts with
  | [] => []
  | part :: rest =>
      if String.eqb (get_content_type part) "text/plain" then
        match get_payload part with
        | Raise _ => []
        | Return None => plain_texts rest
        | Return (Some text) => text :: plain_texts rest
        end
      else plain_texts rest
  end.

(** Both headers the record needs decode. *)
Definition headers_decode (m : Message) : Prop :=
  (exists s, decode_header (get_Subject m) = Return s)
  /\ (exists s, decode_header (get_From m) = Return s).

(** The identifiers of the [FETCH] calls of a trace, in order. *)
Fixpoint fetch_calls (tr : list Command) : list string :=
  match tr with
  | [] => []
  | FETCH email_id :: tr' => email_id :: fetch_calls tr'
  | _ :: tr' => fetch_calls tr'
  end.

(** The title of a message box (a notification has none). *)
Definition title_of (o : UIOut) : string :=
  match o with
  | showerror title _ | showinfo title _ | showwarning title _ => title
  | show_notification _ _ _ => ""
  end.

(** Both fields are filled in and both indicators show a tick. *)
Definition dates_accepted `{PyLib} (self : App) : bool :=
  PyStr.truthy (start_date_var self) && PyStr.truthy (end_date_var self)
  && match validate_dates self with
     | (Tick, Tick) => true
     | _ => false
     end.

(** The calls between login and teardown that only read the mailbox. *)
Definition reads_only (c : Command) : bool :=
  match c with
  | SELECT_INBOX_READONLY | SEARCH _ | FETCH _ => true
  | _ => false
  end.

(** Every installed record carries the blob [_build_search_cache] gives it. *)
Definition cache_built (self : App) : Prop :=
  forall item, In item (emails_data self) ->
               _search_blob item = Some (search_blob item).

(** The visible list is the whole collection, or what the last applied
    query selects from it. *)
Definition visible_is_all_or_last_query (self : App) : Prop :=
  filtered_emails self = emails_data self
  \/ exists q t,
       q <> EmptyString
       /\ _last_filter self = Some (q ++ "|" ++ filter_type_name t)
       /\ filtered_emails self = filter (matches q t) (emails_data self).

(** A record with its four texts in lower case and no blob. *)
Definition lower_fields (item : Email) : Email :=
  mk_email (PyStr.lower (name item)) (PyStr.lower (email item))
           (PyStr.lower (subject item)) (PyStr.lower (body item)) (date item) None.

Module Sample2.

Definition multipart (parts : list Part) : Message :=
  mk_message None (Raise (Exception "unused"))
             (Some (Return [StrPart "Photos"])) (Some (Return [StrPart "hal@example.com"]))
             true parts (Return None).

Definition album : Message :=
  multipart [ mk_part "multipart/mixed" (Return None);
              mk_part "text/plain" (Return (Some "Hello, "));
              mk_part "image/png" (Raise (Exception "unused"));
              mk_part "text/plain" (Return (Some "see attached.")) ].

Definition select_refused : Server :=
  mk_server (fun _ _ => Return tt) (fun _ _ => Return tt) (Return "NO")
            (fun _ => Return ("OK", None)) (fun _ => Return ("NO", NoData)).

Definition empty_inbox : Server := Sample.server "" [].

Definition invoice_record : Email :=
  Sample.record "Alice" "alice@example.com" "Invoice Attached"
                "Please find the invoice." (Sample.at_time 9 0).

Definition meeting_record : Email :=
  Sample.record "bob@example.com" "bob@example.com" "Meeting" "See you at two."
                (Sample.at_time 12 30).

(** The state after one successful retrieval of the five sample messages. *)
Definition loaded : App :=
  @run CLocale.lib Sample.app
       [KeyFetch; WorkerFinishes 0 (Sample.world Sample.inbox); RunCallback true;
        OpenDashboard].

Definition demo_app : App :=
  set_inputs (mk_inputs "2024-01-01" "2024-01-01" true "" "" "Gmail") (init "2024-01-01").

(** A demo dataset, newest first, with one record outside 2024-01-01. *)
Definition demo_world : World :=
  mk_world Sample.connection_refused
           [ Sample.record "Nora" "nora@retailhub.com" "Weekly Report" "Numbers."
                           (mk_datetime 738887 0);
             meeting_record; invoice_record ].

End Sample2.

(* ================================================================== *)
(** * Properties *)

(** ** Strings *)

Lemma mem_char_app : forall c a b,
  PyStr.mem_char c (a ++ b) = PyStr.mem_char c a || PyStr.mem_char c b.
Proof.
  induction a as [| d a IH]; intros b; simpl.
  - reflexivity.
  - rewrite IH. now rewrite orb_assoc.
Qed.

Lemma filter_type_name_no_bar : forall t, PyStr.mem_char "|" (filter_type_name t) = false.
Proof. now intros []. Qed.

Lemma current_filter_empty_query : forall q t t',
  q ++ "|" ++ filter_type_name t = "|" ++ filter_type_name t' -> q = "".
Proof.
  intros [| c q] t t' E; [reflexivity | exfalso].
  simpl in E. injection E as _ E.
  pose proof (filter_type_name_no_bar t') as N.
  rewrite <- E, mem_char_app in N. simpl in N.
  rewrite orb_true_r in N. discriminate.
Qed.

Lemma option_string_eqb_true : forall a b, option_string_eqb a b = true -> a = Some b.
Proof.
  intros [a |] b E; simpl in E; [| discriminate].
  apply String.eqb_eq in E. now subst.
Qed.

(** ** Filter index *)

Lemma matches_blob_irrelevant : forall q t item,
  matches q t (set_search_blob (Some (search_blob item)) item)
  = matches q t (set_search_blob None item).
Proof. now intros q [] item. Qed.

(** C10.  With the search blob precomputed by [_build_search_cache] a record
    matches a query in scope All exactly when it does with the blob computed
    on the fly, and, in every scope, a query over the cached collection
    returns the records a query over the cache-less collection returns. *)
Theorem search_cache_never_changes_results : forall (q : string) (emails : list Email),
  (forall item,
      matches q All (set_search_blob (Some (search_blob item)) item)
      = matches q All (set_search_blob None item))
  /\ (forall t,
         map (set_search_blob None) (filter (matches q t) (_build_search_cache emails))
         = filter (matches q t) (map (set_search_blob None) emails)).
Proof.
  intros q emails. split.
  - intros item. apply matches_blob_irrelevant.
  - intros t. induction emails as [| item emails IH]; simpl; [reflexivity |].
    rewrite matches_blob_irrelevant.
    replace (matches q t (set_search_blob None (set_search_blob None item)))
      with (matches q t (set_search_blob None item)) by now destruct t.
    destruct (matches q t (set_search_blob None item)); simpl; now rewrite IH.
Qed.

(** ** The empty query *)

Lemma apply_search_filter_emails_data : forall self query,
  emails_data (apply_search_filter self query) = emails_data self.
Proof.
  intros self query. unfold apply_search_filter.
  destruct (option_string_eqb _ _); [reflexivity |].
  destruct (negb _); [reflexivity |]. cbn.
  now destruct (filter _ _).
Qed.

Lemma apply_search_filter_keeps_invariant : forall self query,
  empty_query_shows_all self -> empty_query_shows_all (apply_search_filter self query).
Proof.
  intros self query Inv. unfold apply_search_filter.
  destruct (option_string_eqb _ _); [exact Inv |].
  destruct (PyStr.lower (PyStr.strip query)) as [| c q] eqn:Q; cbn.
  - intros t _. reflexivity.
  - assert (X : forall t t', Some (String c q ++ "|" ++ filter_type_name t)
                             <> Some ("|" ++ filter_type_name t')).
    { intros t t' E.
      assert (Q0 : String c q = "")
        by (apply (current_filter_empty_query _ t t'); congruence).
      discriminate. }
    destruct (filter _ _); intros t E; cbn in E; now apply X in E.
Qed.

Lemma apply_empty_query : forall self,
  empty_query_shows_all self ->
  filtered_emails (apply_search_filter self "") = emails_data self.
Proof.
  intros self Inv. unfold apply_search_filter. cbn [PyStr.strip PyStr.lstrip_by
    PyStr.rstrip_by PyStr.lower PyStr.truthy negb].
  destruct (option_string_eqb _ _) eqn:E.
  - apply option_string_eqb_true in E.
    exact (Inv _ E).
  - reflexivity.
Qed.

Lemma on_fetch_done_keeps_invariant : forall self data error status_text,
  empty_query_shows_all self ->
  empty_query_shows_all (_on_fetch_done self data error status_text).
Proof.
  intros self data [e |] status_text Inv; unfold _on_fetch_done.
  - destruct (PyStr.contains _ _); exact Inv.
  - cbn. destruct (_build_search_cache data); intros t _; reflexivity.
Qed.

Lemma fetch_emails_same_results `{PyLib} : forall self,
  same_results self (fetch_emails self).
Proof.
  intros self. unfold fetch_emails, same_results.
  destruct (_ || _); [now cbn |].
  destruct (strptime_Y_m_d (start_date_var self)); [| now cbn].
  destruct (strptime_Y_m_d (end_date_var self)); [| now cbn].
  destruct (PyDate.gtb _ _); now cbn.
Qed.

Lemma same_results_keeps_invariant : forall a b,
  same_results a b -> empty_query_shows_all a -> empty_query_shows_all b.
Proof.
  intros a b (E1 & E2 & E3 & _) Inv t L.
  rewrite E1, E2. apply (Inv t). now rewrite <- E3.
Qed.

Lemma step_keeps_invariant `{PyLib} : forall self ev,
  empty_query_shows_all self -> empty_query_shows_all (step self ev).
Proof.
  intros self ev Inv. destruct ev as [i | | | i w | b | | t | query |]; cbn [step].
  - exact Inv.
  - destruct (fetch_button_disabled self); [exact Inv |].
    exact (same_results_keeps_invariant _ _ (fetch_emails_same_results self) Inv).
  - exact (same_results_keeps_invariant _ _ (fetch_emails_same_results self) Inv).
  - destruct (nth_error _ _); exact Inv.
  - destruct (after_queue self) as [| cb rest]; [exact Inv |].
    destruct cb as [data status | exc]; cbn [run_callback].
    + apply on_fetch_done_keeps_invariant. exact Inv.
    + destruct b; [apply on_fetch_done_keeps_invariant |]; exact Inv.
  - destruct (emails_data self) eqn:E; [exact Inv |].
    intros t _. reflexivity.
  - now apply apply_search_filter_keeps_invariant.
  - now apply apply_search_filter_keeps_invariant.
  - destruct window_exists; [| exact Inv].
    now apply apply_search_filter_keeps_invariant.
Qed.

Lemma run_keeps_invariant `{PyLib} : forall evs self,
  empty_query_shows_all self -> empty_query_shows_all (run self evs).
Proof.
  induction evs as [| ev evs IH]; intros self Inv; simpl.
  - exact Inv.
  - apply IH. now apply step_keeps_invariant.
Qed.

Lemma init_invariant : forall today_str, empty_query_shows_all (init today_str).
Proof. intros today_str t E. discriminate. Qed.

(** C8.  In every state the application can reach, whatever was searched
    for before, and for each of the four scopes, a query with empty text
    leaves the whole collection as the visible list. *)
Theorem empty_query_returns_full_collection `{PyLib} :
  forall (today_str : string) (evs : list Event) (t : FilterType),
    let self := run (init today_str) evs in
    filtered_emails (apply_search_filter self "") = emails_data self
    /\ filtered_emails (run self [SelectFilterType t; SearchFor ""]) = emails_data self.
Proof.
  intros today_str evs t self.
  assert (Inv : empty_query_shows_all self)
    by apply run_keeps_invariant, init_invariant.
  split.
  - now apply apply_empty_query.
  - simpl.
    set (s1 := apply_search_filter (set_filter_type_var (Some t) self) (search_var self)).
    assert (Inv1 : empty_query_shows_all s1).
    { apply apply_search_filter_keeps_invariant. exact Inv. }
    assert (E1 : emails_data s1 = emails_data self)
      by (unfold s1; now rewrite apply_search_filter_emails_data).
    rewrite <- E1.
    change (emails_data s1) with (emails_data (set_search_var "" s1)).
    apply apply_empty_query. exact Inv1.
Qed.

(** ** Order on datetimes *)

Lemma datetime_ltb_spec : forall a b,
  PyDate.ltb a b = true <->
  (toordinal a < toordinal b
   \/ (toordinal a = toordinal b /\ micro_of_day a < micro_of_day b))%Z.
Proof.
  intros a b. unfold PyDate.ltb.
  rewrite orb_true_iff, andb_true_iff, Z.ltb_lt, Z.eqb_eq, Z.ltb_lt. tauto.
Qed.

Lemma datetime_ltb_false_spec : forall a b,
  PyDate.ltb a b = false <->
  (toordinal b < toordinal a
   \/ (toordinal a = toordinal b /\ micro_of_day b <= micro_of_day a))%Z.
Proof.
  intros a b. destruct (PyDate.ltb a b) eqn:E.
  - apply datetime_ltb_spec in E. split; [discriminate | lia].
  - split; [intros _ | reflexivity].
    destruct (Z_lt_le_dec (toordinal b) (toordinal a)); [now left |].
    destruct (Z.eq_dec (toordinal a) (toordinal b)) as [Eo |].
    + destruct (Z_lt_le_dec (micro_of_day a) (micro_of_day b)); [| now right].
      assert (T : PyDate.ltb a b = true) by (apply datetime_ltb_spec; lia). congruence.
    + assert (T : PyDate.ltb a b = true) by (apply datetime_ltb_spec; lia). congruence.
Qed.

Lemma datetime_eqb_eq : forall a b, PyDate.eqb a b = true <-> a = b.
Proof.
  intros [oa ma] [ob mb]. unfold PyDate.eqb. simpl.
  rewrite andb_true_iff, !Z.eqb_eq. split.
  - now intros [-> ->].
  - intros E. now injection E.
Qed.

Lemma eqb_not_ltb : forall a b t,
  PyDate.eqb a t = true -> PyDate.eqb b t = true -> PyDate.ltb a b = false.
Proof.
  intros a b t Ea Eb. apply datetime_eqb_eq in Ea, Eb. subst.
  apply datetime_ltb_false_spec. lia.
Qed.

(** ** Sorting *)

Section SortFacts.
Context {A : Type} (key : A -> datetime).

Local Abbreviation asc := (fun a b : A => PyDate.ltb (key b) (key a) = false).
Local Abbreviation desc := (fun a b : A => PyDate.leb (key b) (key a) = true).
Local Abbreviation keyed t := (fun x : A => PyDate.eqb (key x) t).

Lemma insert_stable_perm : forall x l, Permutation (x :: l) (insert_stable key x l).
Proof.
  induction l as [| y l IH]; simpl; [reflexivity |].
  destruct (PyDate.ltb (key y) (key x)); [| reflexivity].
  rewrite perm_swap. now apply perm_skip.
Qed.

Lemma sort_stable_perm : forall l, Permutation l (sort_stable key l).
Proof.
  induction l as [| x l IH]; simpl; [reflexivity |].
  rewrite <- insert_stable_perm. now apply perm_skip.
Qed.

Lemma sort_reverse_perm : forall l, Permutation l (sort_reverse key l).
Proof.
  intros l. unfold sort_reverse.
  rewrite <- Permutation_rev, <- sort_stable_perm. apply Permutation_rev.
Qed.

Lemma insert_stable_sorted : forall x l,
  StronglySorted asc l -> StronglySorted asc (insert_stable key x l).
Proof.
  induction l as [| y l IH]; intros S; simpl.
  - repeat constructor.
  - inversion S as [| ? ? S' F]; subst.
    destruct (PyDate.ltb (key y) (key x)) eqn:C.
    + constructor; [now apply IH |].
      apply (Permutation_Forall (insert_stable_perm x l)).
      constructor; [| exact F].
      cbv beta. apply datetime_ltb_false_spec. apply datetime_ltb_spec in C. lia.
    + constructor; [exact S |].
      constructor; [exact C |].
      rewrite Forall_forall in F |- *. intros z Hz.
      specialize (F z Hz). cbv beta in *.
      apply datetime_ltb_false_spec in F, C. apply datetime_ltb_false_spec. lia.
Qed.

Lemma sort_stable_sorted : forall l, StronglySorted asc (sort_stable key l).
Proof.
  induction l as [| x l IH]; simpl; [constructor |].
  now apply insert_stable_sorted.
Qed.

Lemma sorted_app_rev : forall l,
  StronglySorted asc l -> StronglySorted desc (rev l).
Proof.
  induction l as [| x l IH]; intros S; simpl; [constructor |].
  inversion S as [| ? ? S' F]; subst.
  assert (G : forall (l1 : list A) (y : A),
             StronglySorted desc l1 -> Forall (fun z => desc z y) l1 ->
             StronglySorted desc (l1 ++ [y])).
  { induction l1 as [| z l1 IH1]; intros y S1 F1; simpl.
    - repeat constructor.
    - inversion S1; inversion F1; subst.
      constructor; [now apply IH1 |].
      apply Forall_app. split; [assumption | now repeat constructor]. }
  apply G; [now apply IH |].
  rewrite Forall_forall in F |- *. intros z Hz. apply in_rev in Hz.
  specialize (F z Hz). cbv beta in *. unfold PyDate.leb. now rewrite F.
Qed.

Lemma sort_reverse_sorted : forall l, StronglySorted desc (sort_reverse key l).
Proof. intros l. apply sorted_app_rev, sort_stable_sorted. Qed.

Lemma insert_stable_keyed : forall t x l,
  filter (keyed t) (insert_stable key x l) = filter (keyed t) (x :: l).
Proof.
  induction l as [| y l IH]; [reflexivity |].
  simpl insert_stable. destruct (PyDate.ltb (key y) (key x)) eqn:C; [| reflexivity].
  simpl in *. rewrite IH.
  destruct (keyed t x) eqn:Kx, (keyed t y) eqn:Ky; try reflexivity.
  cbv beta in *. now rewrite (eqb_not_ltb _ _ _ Ky Kx) in C.
Qed.

Lemma sort_stable_keyed : forall t l,
  filter (keyed t) (sort_stable key l) = filter (keyed t) l.
Proof.
  induction l as [| x l IH]; [reflexivity |].
  simpl sort_stable. rewrite insert_stable_keyed. simpl. now rewrite IH.
Qed.

Lemma sort_reverse_keyed : forall t l,
  filter (keyed t) (sort_reverse key l) = filter (keyed t) l.
Proof.
  intros t l. unfold sort_reverse.
  now rewrite filter_rev, sort_stable_keyed, filter_rev, rev_involutive.
Qed.
End SortFacts.

(** ** Shape of a retrieval *)

Section RetrievalFacts.
Context `{PyLib}.
Local Open Scope list_scope.

Lemma fetch_loop_cons : forall mail start_date email_id rest acc tr,
  fetch_loop mail start_date (email_id :: rest) acc tr =
  match fetch mail email_id with
  | Raise e => (Raise e, tr ++ [FETCH email_id])
  | Return (status, msg_data) =>
      if negb (String.eqb status "OK")
      then fetch_loop mail start_date rest acc (tr ++ [FETCH email_id])
      else match msg_data with
           | Item (Return email_message) =>
               match build_record start_date email_message with
               | Return record =>
                   fetch_loop mail start_date rest (acc ++ [record])
                              (tr ++ [FETCH email_id])
               | Raise e => (Raise e, tr ++ [FETCH email_id])
               end
           | _ => fetch_loop mail start_date rest acc (tr ++ [FETCH email_id])
           end
  end.
Proof.
  intros. cbn [fetch_loop]. unfold bind at 1, call.
  destruct (fetch mail email_id) as [[status msg_data] | e]; [| reflexivity].
  destruct (negb _); [reflexivity |].
  now destruct msg_data as [| [m | e]].
Qed.

Lemma fetch_loop_returns : forall mail start_date email_ids acc tr out tr',
  fetch_loop mail start_date email_ids acc tr = (Return out, tr') ->
  exists built,
    out = (acc ++ built)%list
    /\ Forall2 (fun m r => build_record start_date m = Return r)
               (fetched_messages mail email_ids) built.
Proof.
  induction email_ids as [| email_id rest IH]; intros acc tr out tr' E.
  - injection E as <- _. exists []. split; [now rewrite app_nil_r | constructor].
  - rewrite fetch_loop_cons in E. cbn [fetched_messages]. unfold fetched_message.
    destruct (fetch mail email_id) as [[status msg_data] | e]; [| discriminate].
    destruct (String.eqb status "OK"); cbn [negb] in E.
    + destruct msg_data as [| [m | e]]; try now apply IH in E.
      destruct (build_record start_date m) as [r | e] eqn:B; [| discriminate].
      apply IH in E. destruct E as (built & -> & F).
      exists (r :: built). split; [now rewrite <- app_assoc |].
      now constructor.
    + destruct msg_data as [| [m | e]]; now apply IH in E.
Qed.

Lemma fetch_loop_trace : forall mail start_date email_ids acc tr r tr',
  fetch_loop mail start_date email_ids acc tr = (r, tr') ->
  exists sent, tr' = (tr ++ map FETCH sent)%list.
Proof.
  induction email_ids as [| email_id rest IH]; intros acc tr r tr' E.
  - injection E as _ <-. exists []. now rewrite app_nil_r.
  - rewrite fetch_loop_cons in E.
    assert (K : forall acc0 r0 tr0,
               fetch_loop mail start_date rest acc0 (tr ++ [FETCH email_id]) = (r0, tr0) ->
               exists sent, tr0 = (tr ++ map FETCH sent)%list).
    { intros acc0 r0 tr0 E0. apply IH in E0. destruct E0 as (sent & ->).
      exists (email_id :: sent). now rewrite <- app_assoc. }
    assert (L : forall (r0 : Exc (list Email)) tr0,
               (r0, (tr ++ [FETCH email_id])%list) = (r, tr0) ->
               exists sent, tr0 = (tr ++ map FETCH sent)%list).
    { intros r0 tr0 E0. injection E0 as _ <-. now exists [email_id]. }
    destruct (fetch mail email_id) as [[status msg_data] | e]; [| now apply L in E].
    destruct (negb _); [now apply K in E |].
    destruct msg_data as [| [m | e]]; try now apply K in E.
    destruct (build_record start_date m); [now apply K in E | now apply L in E].
Qed.

(** The criteria as the f-string builds them, character by character; code
    34 is the double quote. *)
Lemma search_criteria_text : forall since_str before_str : string,
  search_criteria since_str before_str
  = ("(SINCE " ++ String "034" (since_str ++ String "034" (" BEFORE "
               ++ String "034" (before_str ++ String "034" ")"))))%string.
Proof. reflexivity. Qed.

(** What a completed session did: it searched with the widened bound, the
    server answered OK, and the records are the sorted output of the fetch
    loop over the identifiers found. *)
Lemma session_body_returns : forall mail user pass start_date end_date tr out tr',
  session_body mail user pass start_date end_date tr = (Return out, tr') ->
  exists before_date id_bytes unsorted tr0 tr1,
    PyDate.add_days end_date 1 = Return before_date
    /\ search mail (search_criteria (strftime_d_b_Y start_date)
                                    (strftime_d_b_Y before_date))
       = Return ("OK", id_bytes)
    /\ fetch_loop mail start_date (email_ids_of id_bytes) [] tr0 = (Return unsorted, tr1)
    /\ out = sort_reverse date unsorted.
Proof.
  intros mail user pass start_date end_date tr out tr' E.
  unfold session_body, bind, call, lift, throw, ret in E.
  destruct (login mail user pass); [| discriminate].
  destruct (select mail) as [status |]; [| discriminate].
  destruct (negb (String.eqb status "OK")); [discriminate |].
  destruct (PyDate.add_days end_date 1) as [before_date |]; [| discriminate].
  destruct (search mail _) as [[status' id_bytes] |] eqn:S; [| discriminate].
  destruct (String.eqb status' "OK") eqn:OK; cbn [negb] in E; [| discriminate].
  apply String.eqb_eq in OK. subst status'.
  exists before_date, id_bytes.
  destruct id_bytes as [[| c ids] |].
  - injection E as <- _. exists [], [], []. repeat split; trivial.
  - destruct (fetch_loop _ _ _ _ _) as [[unsorted |] tr1] eqn:L; [| discriminate].
    injection E as <- _. exists unsorted. eauto 6.
  - injection E as <- _. exists [], [], []. repeat split; trivial.
Qed.

Lemma fetch_real_emails_returns : forall self mail start_date end_date tr out tr',
  fetch_real_emails self mail start_date end_date tr = (Return out, tr') ->
  exists tr0 tr1,
    session_body mail (PyStr.strip (email_var self)) (PyStr.strip (password_var self))
                 start_date end_date tr0 = (Return out, tr1).
Proof.
  intros self mail start_date end_date tr out tr' E.
  unfold fetch_real_emails in E.
  destruct (_ || _); [discriminate |].
  destruct (get_server_config self) as [host port].
  unfold call in E.
  destruct (IMAP4_SSL mail host port); [| discriminate].
  destruct (session_body _ _ _ _ _ _) as [[out' |] tr1] eqn:B; [| discriminate].
  injection E as <- _. eauto.
Qed.
End RetrievalFacts.

(** ** Ordering of a completed retrieval *)

Lemma filter_sorted_desc : forall (p : Email -> bool) l,
  sorted_desc l -> sorted_desc (filter p l).
Proof.
  unfold sorted_desc. induction l as [| x l IH]; intros S; simpl; [constructor |].
  inversion S as [| ? ? S' F]; subst.
  destruct (p x); [| now apply IH].
  constructor; [now apply IH |].
  rewrite Forall_forall in F |- *. intros y Hy.
  apply filter_In in Hy. now apply F.
Qed.

Lemma filter_perm : forall (p : Email -> bool) l l',
  Permutation l l' -> Permutation (filter p l) (filter p l').
Proof.
  intros p l l' P. induction P as [| x l l' P IH | x y l | l l' l'' P1 IH1 P2 IH2]; simpl.
  - constructor.
  - destruct (p x); [now constructor | exact IH].
  - destruct (p x), (p y); try reflexivity. apply perm_swap.
  - now transitivity (filter p l').
Qed.

Lemma filter_comm : forall (p q : Email -> bool) l,
  filter p (filter q l) = filter q (filter p l).
Proof.
  induction l as [| x l IH]; simpl; [reflexivity |].
  destruct (q x) eqn:Q, (p x) eqn:P; simpl; rewrite ?Q, ?P, IH; reflexivity.
Qed.

(** C4.  The records a completed retrieval hands over, live or demo, are
    sorted by timestamp, newest first, and records with the same timestamp
    stand in the order in which they were fetched (live) or drawn (demo).
    The fetch order of a live retrieval is the order of the identifiers in
    the server's answer to the search that was sent: [unsorted] holds one
    record for each message fetched and parsed, in that order. *)
Theorem completed_retrieval_sorted_newest_first `{PyLib} :
  forall (self : App) (w : World) (job : Job) (drawn data : list Email) (status : string),
    demo_dataset w = generate_large_dataset drawn ->
    worker self w job = DoneCallback data status ->
    sorted_desc data
    /\ exists unsorted,
         (if use_demo job
          then unsorted = load_demo_emails_between drawn (job_start_date job)
                                                   (job_end_date job)
          else exists before_date id_bytes,
                 PyDate.add_days (job_end_date job) 1 = Return before_date
                 /\ search (mail_server w)
                           ("(SINCE "
                              ++ String "034" (strftime_d_b_Y (job_start_date job)
                              ++ String "034" (" BEFORE "
                              ++ String "034" (strftime_d_b_Y before_date
                              ++ String "034" ")"))))
                    = Return ("OK", id_bytes)
                 /\ Forall2 (fun m r => build_record (job_start_date job) m = Return r)
                            (fetched_messages (mail_server w) (email_ids_of id_bytes))
                            unsorted)
         /\ Permutation unsorted data
         /\ forall t, with_date t data = with_date t unsorted.
Proof.
  intros self w job drawn data status D W. unfold worker in W.
  destruct (use_demo job).
  - injection W as <- _. rewrite D. unfold load_demo_emails_between, generate_large_dataset.
    split; [apply filter_sorted_desc, sort_reverse_sorted |].
    eexists. split; [reflexivity |]. split.
    + apply filter_perm, sort_reverse_perm.
    + intros t. unfold with_date.
      rewrite filter_comm, (sort_reverse_keyed date). apply filter_comm.
  - destruct (fetch_real_emails _ _ _ _ _) as [[out | e] tr'] eqn:R; [| discriminate].
    cbn [fst] in W. injection W as <- _.
    apply fetch_real_emails_returns in R. destruct R as (tr0 & tr1 & B).
    apply session_body_returns in B.
    destruct B as (before_date & id_bytes & unsorted & tr2 & tr3 & A & S & L & ->).
    apply fetch_loop_returns in L. destruct L as (built & -> & F). cbn [app].
    rewrite search_criteria_text in S.
    split; [apply sort_reverse_sorted |].
    exists built. split; [exists before_date, id_bytes; auto |]. split.
    + apply sort_reverse_perm.
    + intros t. apply (sort_reverse_keyed date).
Qed.

(** The five-message scenario: the server answers the search with the
    identifiers 1 to 5, and the two pairs of equal timestamps (Alice and
    Carol at nine, the two messages without a usable date at midnight) keep
    that order. *)
Lemma completed_retrieval_sorted_newest_first_witness :
  let job := mk_job false Sample.day_2024_01_01 Sample.day_2024_01_01 in
  let w := Sample.world Sample.inbox in
  let data :=
    [ Sample.record "bob@example.com" "bob@example.com" "Meeting" "See you at two."
                    (Sample.at_time 12 30);
      Sample.record "Alice" "alice@example.com" "Invoice Attached"
                    "Please find the invoice." (Sample.at_time 9 0);
      Sample.record "Carol" "carol@example.com" "Weekly Report" "Numbers are up."
                    (Sample.at_time 9 0);
      Sample.record "dave@example.com" "dave@example.com" "Budget" "Approve please."
                    Sample.day_2024_01_01;
      Sample.record "erin@example.com" "erin@example.com" "Welcome" "Hello."
                    Sample.day_2024_01_01 ] in
  demo_dataset w = generate_large_dataset []
  /\ @worker CLocale.lib Sample.app w job = DoneCallback data "Found 5 emails"
  /\ sorted_desc data
  /\ exists unsorted,
       (exists before_date id_bytes,
           PyDate.add_days Sample.day_2024_01_01 1 = Return before_date
           /\ search Sample.inbox
                     ("(SINCE "
                        ++ String "034" (CLocale.strftime Sample.day_2024_01_01
                        ++ String "034" (" BEFORE "
                        ++ String "034" (CLocale.strftime before_date
                        ++ String "034" ")"))))
              = Return ("OK", id_bytes)
           /\ Forall2 (fun m r => @build_record CLocale.lib Sample.day_2024_01_01 m = Return r)
                      (fetched_messages Sample.inbox (email_ids_of id_bytes)) unsorted)
       /\ Permutation unsorted data
       /\ forall t, with_date t data = with_date t unsorted.
Proof.
  intros job w data.
  assert (D : demo_dataset w = generate_large_dataset []) by reflexivity.
  assert (W : @worker CLocale.lib Sample.app w job = DoneCallback data "Found 5 emails")
    by (vm_compute; reflexivity).
  split; [exact D |]. split; [exact W |].
  exact (@completed_retrieval_sorted_newest_first CLocale.lib
           Sample.app w job [] data "Found 5 emails" D W).
Defined.

(** ** Timestamps and record count *)





(** ** Body preview *)

Lemma take_length : forall n s, String.length (PyStr.take n s) = Nat.min n (String.length s).
Proof.
  induction n as [| n IH]; intros [| c s]; simpl; try reflexivity.
  now rewrite IH.
Qed.

Lemma append_length : forall a b,
  String.length (a ++ b) = String.length a + String.length b.
Proof. induction a as [| c a IH]; intros b; simpl; [reflexivity | now rewrite IH]. Qed.

Lemma build_record_body `{PyLib} : forall start_date m r,
  build_record start_date m = Return r ->
  body r = body_preview (extract_email_body m).
Proof.
  intros start_date m r B. unfold build_record in B.
  destruct (decode_header (get_Subject m)); [| discriminate].
  destruct (decode_header (get_From m)); [| discriminate].
  destruct (parse_sender _). now injection B as <-.
Qed.

Lemma body_preview_length : forall text,
  String.length (body_preview text) <= 203.
Proof.
  intros text. unfold body_preview.
  destruct (200 <? String.length text) eqn:L.
  - rewrite append_length, take_length. change (String.length "...") with 3. lia.
  - apply Nat.ltb_ge in L. lia.
Qed.

(** C7, as the code has it.  The record keeps one body field, the preview:
    at most 203 characters.  Two messages whose 201-character bodies differ
    in the last character give the same record, so the body of a message
    cannot be read back from its record, and the detail view, which reads
    the record, shows the preview. *)
Theorem record_keeps_only_the_preview :
  let start_date := Sample.day_2024_01_01 in
  (forall (lib : PyLib) m r,
      @build_record lib start_date m = Return r -> String.length (body r) <= 203)
  /\ String.length (extract_email_body Sample.long_body_a) = 201
  /\ extract_email_body Sample.long_body_a <> extract_email_body Sample.long_body_b
  /\ @build_record CLocale.lib start_date Sample.long_body_a
     = @build_record CLocale.lib start_date Sample.long_body_b
  /\ @build_record CLocale.lib start_date Sample.long_body_a
     = Return (Sample.record "gina@example.com" "gina@example.com" "Notes"
                             (PyStr.repeat "a" 200 ++ "...") (Sample.at_time 8 0)).
Proof.
  intros start_date. split; [| split; [| split; [| split]]].
  - intros lib m r B. rewrite (build_record_body _ _ _ B). apply body_preview_length.
  - vm_compute. reflexivity.
  - vm_compute. discriminate.
  - vm_compute. reflexivity.
  - vm_compute. reflexivity.
Qed.

(** ** One undecodable header *)

(** A message that cannot be fetched or parsed is passed over. *)
Lemma fetch_loop_skips `{PyLib} : forall mail start_date email_id rest acc tr status msg_data,
  fetch mail email_id = Return (status, msg_data) ->
  String.eqb status "OK" = false \/ msg_data = NoData
  \/ (exists e, msg_data = Item (Raise e)) ->
  fetch_loop mail start_date (email_id :: rest) acc tr
  = fetch_loop mail start_date rest acc (tr ++ [FETCH email_id])%list.
Proof.
  intros mail start_date email_id rest acc tr status msg_data F C.
  rewrite fetch_loop_cons, F.
  destruct C as [C | [C | [e C]]].
  - now rewrite C.
  - subst msg_data. now destruct (negb _).
  - subst msg_data. now destruct (negb _).
Qed.

(** A header that does not decode ends the loop, whatever follows. *)
Lemma fetch_loop_aborts `{PyLib} : forall mail start_date email_id rest acc tr m e,
  fetch mail email_id = Return ("OK", Item (Return m)) ->
  decode_header (get_Subject m) = Raise e \/
  (exists s, decode_header (get_Subject m) = Return s /\ decode_header (get_From m) = Raise e) ->
  fetch_loop mail start_date (email_id :: rest) acc tr
  = (Raise e, (tr ++ [FETCH email_id])%list).
Proof.
  intros mail start_date email_id rest acc tr m e F D.
  rewrite fetch_loop_cons, F. cbn [String.eqb Ascii.eqb Bool.eqb negb].
  unfold build_record.
  destruct D as [D | (s & D1 & D2)]; [now rewrite D | now rewrite D1, D2].
Qed.

(** C1, as the code has it.  Of three messages the second has a subject
    whose bytes do not decode in the declared charset: the exception leaves
    the fetch loop, the third message is never fetched and the retrieval
    fails, where dropping the second message alone gives two records.
    Messages that cannot be fetched or parsed are skipped. *)
Theorem undecodable_header_aborts_retrieval :
  let fetched := @fetch_real_emails CLocale.lib Sample.app Sample.inbox_with_bad_subject
                   Sample.day_2024_01_01 Sample.day_2024_01_01 [] in
  fetched
  = (Raise (Exception
       "IMAP connection failed: 'utf-8' codec can't decode byte 0xff in position 0: invalid start byte"),
     [ CONNECT "imap.gmail.com" 993; LOGIN "user@example.com" "app-password";
       SELECT_INBOX_READONLY;
       SEARCH (search_criteria "01-Jan-2024" "02-Jan-2024");
       FETCH "1"; FETCH "2"; CLOSE; LOGOUT ])
  /\ fst (@fetch_real_emails CLocale.lib Sample.app
            (Sample.server "1 2 3" [("1", Sample.invoice); ("3", Sample.meeting)])
            Sample.day_2024_01_01 Sample.day_2024_01_01 [])
     = Return [ Sample.record "bob@example.com" "bob@example.com" "Meeting"
                              "See you at two." (Sample.at_time 12 30);
                Sample.record "Alice" "alice@example.com" "Invoice Attached"
                              "Please find the invoice." (Sample.at_time 9 0) ].
Proof. split; vm_compute; reflexivity. Qed.

(** ** Search criteria *)

Section SearchFacts.
Context `{PyLib}.
Local Open Scope list_scope.

Lemma in_search_fetches : forall criteria tr sent,
  In (SEARCH criteria) (tr ++ map FETCH sent) -> In (SEARCH criteria) tr.
Proof.
  intros criteria tr sent I. apply in_app_or in I. destruct I as [I | I]; [exact I |].
  apply in_map_iff in I. destruct I as (x & E & _). discriminate.
Qed.

Lemma add_days_ordinal : forall d n d',
  PyDate.add_days d n = Return d' ->
  toordinal d' = (toordinal d + n)%Z /\ micro_of_day d' = micro_of_day d.
Proof.
  intros d n d' E. unfold PyDate.add_days in E.
  destruct (_ && _); [| discriminate]. now injection E as <-.
Qed.

Lemma session_body_searches : forall mail user pass start_date end_date tr r tr' criteria,
  session_body mail user pass start_date end_date tr = (r, tr') ->
  In (SEARCH criteria) tr' ->
  In (SEARCH criteria) tr
  \/ exists before_date,
       PyDate.add_days end_date 1 = Return before_date
       /\ criteria = search_criteria (strftime_d_b_Y start_date)
                                     (strftime_d_b_Y before_date).
Proof.
  intros mail user pass start_date end_date tr r tr' criteria E I.
  assert (T : exists extra,
             tr' = tr ++ extra
             /\ (In (SEARCH criteria) extra ->
                 exists before_date,
                   PyDate.add_days end_date 1 = Return before_date
                   /\ criteria = search_criteria (strftime_d_b_Y start_date)
                                                 (strftime_d_b_Y before_date))).
  { clear I. unfold session_body, bind, call, lift, throw, ret in E.
    destruct (login mail user pass).
    2:{ injection E as _ <-. eexists. split; [reflexivity |].
        intros [J | []]. discriminate. }
    destruct (select mail) as [status |].
    2:{ injection E as _ <-. exists [LOGIN user pass; SELECT_INBOX_READONLY].
        split; [now rewrite <- app_assoc |].
        intros [J | [J | []]]; discriminate. }
    destruct (negb (String.eqb status "OK")).
    { injection E as _ <-. exists [LOGIN user pass; SELECT_INBOX_READONLY].
      split; [now rewrite <- app_assoc |].
      intros [J | [J | []]]; discriminate. }
    destruct (PyDate.add_days end_date 1) as [before_date |].
    2:{ injection E as _ <-. exists [LOGIN user pass; SELECT_INBOX_READONLY].
        split; [now rewrite <- app_assoc |].
        intros [J | [J | []]]; discriminate. }
    assert (Q : forall sent_ids,
               exists extra,
                 (((tr ++ [LOGIN user pass]) ++ [SELECT_INBOX_READONLY])
                    ++ [SEARCH (search_criteria (strftime_d_b_Y start_date)
                                                (strftime_d_b_Y before_date))])
                   ++ map FETCH sent_ids = tr ++ extra
                 /\ (In (SEARCH criteria) extra ->
                     exists b, Return before_date = Return b
                               /\ criteria = search_criteria (strftime_d_b_Y start_date)
                                                             (strftime_d_b_Y b))).
    { intros sent_ids.
      exists ([LOGIN user pass; SELECT_INBOX_READONLY;
               SEARCH (search_criteria (strftime_d_b_Y start_date)
                                       (strftime_d_b_Y before_date))]
                ++ map FETCH sent_ids).
      split; [now rewrite <- !app_assoc |].
      intros [J | [J | [J | J]]]; try discriminate.
      - injection J as <-. now exists before_date.
      - apply in_map_iff in J. destruct J as (x & J & _). discriminate. }
    assert (Q0 := Q []). cbn [map] in Q0. rewrite app_nil_r in Q0.
    destruct (search mail _) as [[status' id_bytes] |].
    2:{ injection E as _ <-. destruct Q0 as (extra & -> & K). eauto. }
    destruct (negb (String.eqb status' "OK")).
    { injection E as _ <-. destruct Q0 as (extra & -> & K). eauto. }
    destruct id_bytes as [[| c ids] |].
    - injection E as _ <-. destruct Q0 as (extra & -> & K). eauto.
    - destruct (fetch_loop _ _ _ _ _) as [r0 tr0] eqn:L.
      apply fetch_loop_trace in L. destruct L as (sent_ids & ->).
      destruct (Q sent_ids) as (extra & EQ & K).
      destruct r0; injection E as _ <-; rewrite EQ; eauto.
    - injection E as _ <-. destruct Q0 as (extra & -> & K). eauto. }
  destruct T as (extra & -> & K).
  apply in_app_or in I. destruct I as [I | I]; [now left | right; auto].
Qed.
End SearchFacts.

(** C6.  Whatever the range, the criteria of a search the retrieval sends to
    the server read, character by character (code 34 is the double quote),
    [(SINCE "<start>" BEFORE "<day after end>")]: the lower bound is the
    start date itself and the upper bound the end date plus one day, both
    printed as day, month name, year. *)
Theorem search_upper_bound_is_day_after_end `{PyLib} :
  forall (self : App) (mail : Server) (start_date end_date : datetime) (criteria : string),
    In (SEARCH criteria) (snd (fetch_real_emails self mail start_date end_date [])) ->
    exists before_date,
      PyDate.add_days end_date 1 = Return before_date
      /\ toordinal before_date = (toordinal end_date + 1)%Z
      /\ micro_of_day before_date = micro_of_day end_date
      /\ criteria = "(SINCE "
                      ++ String "034" (strftime_d_b_Y start_date
                      ++ String "034" (" BEFORE "
                      ++ String "034" (strftime_d_b_Y before_date
                      ++ String "034" ")"))).
Proof.
  intros self mail start_date end_date criteria I.
  unfold fetch_real_emails in I.
  destruct (_ || _); [destruct I |].
  destruct (get_server_config self) as [host port].
  unfold call in I. cbn [app] in I.
  destruct (IMAP4_SSL mail host port).
  2:{ destruct I as [I | []]. discriminate. }
  destruct (session_body _ _ _ _ _ _) as [r tr'] eqn:B.
  assert (J : In (SEARCH criteria) tr').
  { destruct r; cbn [snd] in I; apply in_app_or in I;
      (destruct I as [I | [I | [I | []]]]; [exact I | discriminate | discriminate]). }
  destruct (session_body_searches _ _ _ _ _ _ _ _ _ B J) as [K | (before_date & A & C)].
  - destruct K as [K | []]. discriminate.
  - exists before_date. destruct (add_days_ordinal _ _ _ A).
    rewrite search_criteria_text in C. auto.
Qed.

(** The range 2024-01-01 to 2024-01-01 is searched from 01-Jan-2024 to
    before 02-Jan-2024. *)
Lemma search_upper_bound_is_day_after_end_witness :
  let criteria :=
    "(SINCE " ++ String "034" ("01-Jan-2024" ++ String "034" (" BEFORE "
              ++ String "034" ("02-Jan-2024" ++ String "034" ")"))) in
  In (SEARCH criteria)
     (snd (@fetch_real_emails CLocale.lib Sample.app Sample.inbox
             Sample.day_2024_01_01 Sample.day_2024_01_01 []))
  /\ exists before_date,
       PyDate.add_days Sample.day_2024_01_01 1 = Return before_date
       /\ toordinal before_date = (toordinal Sample.day_2024_01_01 + 1)%Z
       /\ micro_of_day before_date = micro_of_day Sample.day_2024_01_01
       /\ criteria = "(SINCE "
                       ++ String "034" (CLocale.strftime Sample.day_2024_01_01
                       ++ String "034" (" BEFORE "
                       ++ String "034" (CLocale.strftime before_date
                       ++ String "034" ")"))).
Proof.
  intros criteria.
  assert (I : In (SEARCH criteria)
                 (snd (@fetch_real_emails CLocale.lib Sample.app Sample.inbox
                         Sample.day_2024_01_01 Sample.day_2024_01_01 []))).
  { vm_compute. right. right. right. left. reflexivity. }
  split; [exact I |].
  exact (@search_upper_bound_is_day_after_end CLocale.lib _ _ _ _ _ I).
Defined.

(** The search does go out once the session is open, unless the end date
    is the last day a [datetime] can hold. *)
Lemma search_is_sent `{PyLib} :
  forall (self : App) (mail : Server) (start_date end_date : datetime),
    PyStr.truthy (PyStr.strip (email_var self)) = true ->
    PyStr.truthy (PyStr.strip (password_var self)) = true ->
    IMAP4_SSL mail (fst (get_server_config self)) (snd (get_server_config self)) = Return tt ->
    login mail (PyStr.strip (email_var self)) (PyStr.strip (password_var self)) = Return tt ->
    select mail = Return "OK" ->
    (PyDate.MINORDINAL <= toordinal end_date + 1 <= PyDate.MAXORDINAL)%Z ->
    sends_widened_search self mail start_date end_date.
Proof.
  intros self mail start_date end_date U P C L S R.
  exists (mk_datetime (toordinal end_date + 1) (micro_of_day end_date)).
  split; [reflexivity |].
  unfold fetch_real_emails. rewrite U, P. cbn [negb orb].
  destruct (get_server_config self) as [host port]. cbn [fst snd] in C.
  unfold call. rewrite C.
  assert (A : PyDate.add_days end_date 1
              = Return (mk_datetime (toordinal end_date + 1) (micro_of_day end_date))).
  { unfold PyDate.add_days.
    destruct (Z.leb_spec PyDate.MINORDINAL (toordinal end_date + 1)); [| lia].
    destruct (Z.leb_spec (toordinal end_date + 1) PyDate.MAXORDINAL); [| lia].
    reflexivity. }
  set (c := SEARCH _).
  assert (B : exists r rest,
             session_body mail (PyStr.strip (email_var self))
                          (PyStr.strip (password_var self)) start_date end_date
                          ([] ++ [CONNECT host port])%list
             = (r, ([CONNECT host port; LOGIN (PyStr.strip (email_var self))
                                              (PyStr.strip (password_var self));
                     SELECT_INBOX_READONLY; c] ++ rest)%list)).
  { unfold session_body, bind, call, lift, throw, ret. rewrite L, S, A. cbn [String.eqb negb].
    cbn [Ascii.eqb Bool.eqb negb]. fold c.
    destruct (search mail _) as [[status' id_bytes] |]; [| now exists (Raise e), []].
    destruct (negb (String.eqb status' "OK")); [now eexists _, [] |].
    destruct id_bytes as [[| ch ids] |]; try now eexists _, [].
    destruct (fetch_loop _ _ _ _ _) as [r0 tr0] eqn:F.
    apply fetch_loop_trace in F. destruct F as (sent & ->).
    destruct r0; eexists _, (map FETCH sent); reflexivity. }
  destruct B as (r & rest & ->).
  destruct r; cbn [snd]; apply in_or_app; left; simpl; auto.
Qed.

(** ** Failure outcomes *)

(** C9, as stated, fails.  A search the server rejects and a rejected login
    come back under one label; a search answered with a status other than
    OK and a refused connection come back under the other; and the
    completion handler raises the same generic error box for a failed
    search as for a refused connection. *)
Lemma search_failure_has_no_outcome_of_its_own :
  let outcome mail :=
    fst (@fetch_real_emails CLocale.lib Sample.app mail
           Sample.day_2024_01_01 Sample.day_2024_01_01 []) in
  failure_label (outcome Sample.search_rejected) = failure_label (outcome Sample.login_rejected)
  /\ failure_label (outcome Sample.search_refused)
     = failure_label (outcome Sample.connection_refused)
  /\ error_dialog Sample.app (outcome Sample.search_rejected) = Some "Error"
  /\ error_dialog Sample.app (outcome Sample.search_refused) = Some "Error"
  /\ error_dialog Sample.app (outcome Sample.connection_refused) = Some "Error".
Proof.
  intros outcome.
  split; [| split; [| split; [| split]]]; vm_compute; reflexivity.
Qed.

Lemma error_dialog_title : forall (self : App) (e : PyExc),
  error_dialog self (Raise e : Exc (list Email))
  = Some (if PyStr.contains "AUTHENTICATIONFAILED" (PyStr.upper (str_of_exc e))
          then "Authentication Failed" else "Error").
Proof.
  intros self e. unfold error_dialog, _on_fetch_done.
  destruct (PyStr.contains _ _); cbn [ui show set_status_label];
    now rewrite rev_app_distr.
Qed.

(** C9, amended.  A failed retrieval takes one of three forms, told apart
    by where the failure arose and by the class of the exception, not by
    its cause.  With the address or the password blank, the retrieval
    raises its own message and opens no connection.  Otherwise an exception
    of the mail library's protocol-error class ([imaplib.IMAP4.error] and
    its subclasses) raised by connecting, logging in, selecting the inbox
    or searching comes back as "IMAP authentication/search error: " and its
    text, whichever call raised it, and an exception of any other class as
    "IMAP connection failed: " and its text; every failure with both
    credentials present has one of these two forms.  The three forms never
    coincide.  The completion handler raises the "Authentication Failed"
    box exactly when the text of the failure contains AUTHENTICATIONFAILED
    in any letter case, and the "Error" box otherwise. *)
Theorem failures_are_labelled_by_exception_class `{PyLib} :
  forall (self : App) (mail : Server) (start_date end_date : datetime),
    let outcome := fst (fetch_real_emails self mail start_date end_date []) in
    let host := fst (get_server_config self) in
    let port := snd (get_server_config self) in
    let user := PyStr.strip (email_var self) in
    let pass := PyStr.strip (password_var self) in
    let missing := negb (PyStr.truthy user) || negb (PyStr.truthy pass) in
    let label := fun cause : PyExc =>
      match cause with
      | IMAP4_error text => Exception ("IMAP authentication/search error: " ++ text)
      | Exception text => Exception ("IMAP connection failed: " ++ text)
      end in
    (missing = true ->
     outcome = Raise (Exception "Email and password are required when demo mode is off.")
     /\ snd (fetch_real_emails self mail start_date end_date []) = [])
    /\ (missing = false ->
        forall cause : PyExc,
          IMAP4_SSL mail host port = Raise cause
          \/ (IMAP4_SSL mail host port = Return tt
              /\ login mail user pass = Raise cause)
          \/ (IMAP4_SSL mail host port = Return tt
              /\ login mail user pass = Return tt
              /\ select mail = Raise cause)
          \/ (exists before_date,
                 IMAP4_SSL mail host port = Return tt
                 /\ login mail user pass = Return tt
                 /\ select mail = Return "OK"
                 /\ PyDate.add_days end_date 1 = Return before_date
                 /\ search mail
                           ("(SINCE "
                              ++ String "034" (strftime_d_b_Y start_date
                              ++ String "034" (" BEFORE "
                              ++ String "034" (strftime_d_b_Y before_date
                              ++ String "034" ")"))))
                    = Raise cause) ->
          outcome = Raise (label cause))
    /\ (missing = false ->
        forall e : PyExc, outcome = Raise e -> exists cause, e = label cause)
    /\ (forall cause,
           label cause <> Exception "Email and password are required when demo mode is off.")
    /\ (forall text text', label (IMAP4_error text) <> label (Exception text'))
    /\ (forall e,
           error_dialog self (Raise e : Exc (list Email))
           = Some (if PyStr.contains "AUTHENTICATIONFAILED" (PyStr.upper (str_of_exc e))
                   then "Authentication Failed" else "Error")).
Proof.
  intros self mail start_date end_date outcome host port user pass missing label.
  assert (O : outcome = fst (fetch_real_emails self mail start_date end_date []))
    by reflexivity.
  clearbody outcome.
  assert (P : missing = false ->
              outcome
              = match IMAP4_SSL mail host port with
                | Raise e => Raise (label e)
                | Return _ =>
                    match fst (session_body mail user pass start_date end_date
                                            [CONNECT host port]) with
                    | Return emails => Return emails
                    | Raise e => Raise (label e)
                    end
                end).
  { intros M. unfold missing, user, pass in M.
    unfold fetch_real_emails in O. rewrite M in O.
    unfold host, port, user, pass.
    destruct (get_server_config self) as [h p]. cbn [fst snd].
    unfold call in O. cbn [app] in O.
    destruct (IMAP4_SSL mail h p); [| exact O].
    destruct (session_body _ _ _ _ _ _) as [[emails | e] tr]; exact O. }
  split; [| split; [| split; [| split; [| split]]]].
  - intros M. unfold missing, user, pass in M.
    unfold fetch_real_emails in O |- *. rewrite M in O |- *. now split.
  - intros M cause Site. rewrite (P M).
    destruct Site as [C | [(C & L) | [(C & L & S) | (before_date & C & L & S & A & R)]]];
      rewrite C; [reflexivity | | |];
      unfold session_body, bind, call, lift, throw, ret; rewrite L; [reflexivity | |];
      rewrite S; [reflexivity |].
    rewrite A. cbn [String.eqb Ascii.eqb Bool.eqb negb].
    rewrite search_criteria_text, R. reflexivity.
  - intros M e E. rewrite (P M) in E.
    destruct (IMAP4_SSL mail host port) as [u | cause].
    + destruct (fst (session_body _ _ _ _ _ _)) as [emails | cause]; [discriminate |].
      exists cause. congruence.
    + exists cause. congruence.
  - intros [text | text]; cbn; discriminate.
  - intros text text'. cbn. discriminate.
  - intros e. apply error_dialog_title.
Qed.

(** Four failures of the sample application: a blank password, a login the
    server rejects, a connection that drops during login, and a connection
    that cannot be opened.  The dropped connection comes back under the
    authentication/search label. *)
Lemma failures_are_labelled_by_exception_class_witness :
  let d := Sample.day_2024_01_01 in
  fst (@fetch_real_emails CLocale.lib Sample.no_password Sample.inbox d d [])
  = Raise (Exception "Email and password are required when demo mode is off.")
  /\ fst (@fetch_real_emails CLocale.lib Sample.app Sample.login_rejected d d [])
     = Raise (Exception
         "IMAP authentication/search error: b'[AUTHENTICATIONFAILED] Invalid credentials (Failure)'")
  /\ fst (@fetch_real_emails CLocale.lib Sample.app Sample.login_aborted d d [])
     = Raise (Exception "IMAP authentication/search error: socket error: EOF")
  /\ fst (@fetch_real_emails CLocale.lib Sample.app Sample.connection_refused d d [])
     = Raise (Exception "IMAP connection failed: [Errno 111] Connection refused").
Proof.
  intros d. split; [| split; [| split]].
  - exact (proj1 (proj1
      (@failures_are_labelled_by_exception_class CLocale.lib Sample.no_password
         Sample.inbox d d) eq_refl)).
  - exact (proj1 (proj2
      (@failures_are_labelled_by_exception_class CLocale.lib Sample.app
         Sample.login_rejected d d)) eq_refl
      (IMAP4_error "b'[AUTHENTICATIONFAILED] Invalid credentials (Failure)'")
      (or_intror (or_introl (conj eq_refl eq_refl)))).
  - exact (proj1 (proj2
      (@failures_are_labelled_by_exception_class CLocale.lib Sample.app
         Sample.login_aborted d d)) eq_refl
      (IMAP4_error "socket error: EOF")
      (or_intror (or_introl (conj eq_refl eq_refl)))).
  - exact (proj1 (proj2
      (@failures_are_labelled_by_exception_class CLocale.lib Sample.app
         Sample.connection_refused d d)) eq_refl
      (Exception "[Errno 111] Connection refused")
      (or_introl eq_refl)).
Defined.

(** ** Fetch coordinator *)

(** C2, as the code has it.  With one retrieval in flight the fetch button
    is disabled and a click does nothing, but the key bindings call
    [fetch_emails], which does not look at what is running: a second worker
    starts, and both workers deliver their result. *)
Theorem second_start_while_fetching_is_not_rejected :
  let job := mk_job false Sample.day_2024_01_01 Sample.day_2024_01_01 in
  let w := Sample.world Sample.inbox in
  let fetching := @step CLocale.lib Sample.app KeyFetch in
  let twice := @step CLocale.lib fetching KeyFetch in
  let done := @run CLocale.lib twice
                [WorkerFinishes 0 w; WorkerFinishes 0 w; RunCallback true; RunCallback true] in
  threads fetching = [job]
  /\ fetch_button_disabled fetching = true
  /\ @step CLocale.lib fetching ClickFetch = fetching
  /\ threads twice = [job; job]
  /\ ui done = [ show_notification "Successfully fetched 5 emails" "success" 3000;
                 showinfo "Success" "Successfully fetched 5 emails.";
                 show_notification "Successfully fetched 5 emails" "success" 3000;
                 showinfo "Success" "Successfully fetched 5 emails." ].
Proof.
  intros job w fetching twice done.
  split; [| split; [| split; [| split]]]; vm_compute; reflexivity.
Qed.

Lemma fetch_emails_always_starts_a_worker `{PyLib} : forall self start_date end_date,
  PyStr.truthy (start_date_var self) = true ->
  PyStr.truthy (end_date_var self) = true ->
  strptime_Y_m_d (start_date_var self) = Return start_date ->
  strptime_Y_m_d (end_date_var self) = Return end_date ->
  PyDate.gtb start_date end_date = false ->
  threads (fetch_emails self)
  = (threads self ++ [mk_job (demo_mode_var self) start_date end_date])%list.
Proof.
  intros self start_date end_date S E PS PE G. unfold fetch_emails.
  now rewrite S, E, PS, PE, G.
Qed.

Lemma on_fetch_done_error_same_results : forall self data exc status_text,
  same_results self (_on_fetch_done self data (Some exc) status_text).
Proof.
  intros self data exc status_text. unfold _on_fetch_done, same_results.
  destruct (PyStr.contains _ _); cbn; auto.
Qed.

(** C3.  A retrieval that ends in failure changes neither the installed
    collection nor the filter state: not when it is started, not when its
    worker finishes and the scheduled callback runs (whether the callback
    reaches [_on_fetch_done] or not), and not in [_on_fetch_done] itself
    when it is handed an error. *)
Theorem failed_retrieval_keeps_results `{PyLib} :
  forall (self : App) (w : World) (i : nat) (job : Job) (exc : PyExc) (exc_bound : bool),
    nth_error (threads self) i = Some job ->
    worker self w job = ErrorCallback exc ->
    after_queue self = [] ->
    same_results self (run self [WorkerFinishes i w; RunCallback exc_bound])
    /\ (forall data status_text,
           same_results self (_on_fetch_done self data (Some exc) status_text))
    /\ same_results self (fetch_emails self).
Proof.
  intros self w i job exc exc_bound J W Q. split; [| split].
  - cbn [run fold_left step]. rewrite J. cbn [after_queue set_after_queue set_threads].
    rewrite Q, W. cbn [app run_callback].
    destruct exc_bound.
    + apply (on_fetch_done_error_same_results
               (set_after_queue [] (set_after_queue [ErrorCallback exc]
                                      (set_threads (remove_nth i (threads self)) self)))).
    + unfold same_results. cbn. auto.
  - intros data status_text. apply on_fetch_done_error_same_results.
  - apply fetch_emails_same_results.
Qed.

(** Five records installed and a search for "Invoice" showing one of them;
    then a retrieval whose login the server rejects. *)
Lemma failed_retrieval_keeps_results_witness :
  let before :=
    @run CLocale.lib Sample.app
         [ KeyFetch; WorkerFinishes 0 (Sample.world Sample.inbox); RunCallback true;
           OpenDashboard; SearchFor "Invoice"; KeyFetch ] in
  let job := mk_job false Sample.day_2024_01_01 Sample.day_2024_01_01 in
  let exc := Exception
               "IMAP authentication/search error: b'[AUTHENTICATIONFAILED] Invalid credentials (Failure)'" in
  let after := @run CLocale.lib before
                    [WorkerFinishes 0 (Sample.world Sample.login_rejected); RunCallback true] in
  nth_error (threads before) 0 = Some job
  /\ @worker CLocale.lib before (Sample.world Sample.login_rejected) job = ErrorCallback exc
  /\ after_queue before = []
  /\ List.length (emails_data before) = 5
  /\ List.length (filtered_emails before) = 1
  /\ same_results before after.
Proof.
  intros before job exc after.
  assert (J : nth_error (threads before) 0 = Some job) by (vm_compute; reflexivity).
  assert (W : @worker CLocale.lib before (Sample.world Sample.login_rejected) job
              = ErrorCallback exc) by (vm_compute; reflexivity).
  assert (Q : after_queue before = []) by (vm_compute; reflexivity).
  split; [exact J |]. split; [exact W |]. split; [exact Q |].
  split; [vm_compute; reflexivity |]. split; [vm_compute; reflexivity |].
  exact (proj1 (@failed_retrieval_keeps_results CLocale.lib before
                  (Sample.world Sample.login_rejected) 0 job exc true J W Q)).
Defined.

(** ** Worked scenarios *)

Example ymd2ord_2024_01_01 : CLocale.ymd2ord 2024 1 1 = 738886%Z.
Proof. reflexivity. Qed.

Example ord2ymd_last_day : CLocale.ord2ymd PyDate.MAXORDINAL = (9999, 12, 31)%Z.
Proof. reflexivity. Qed.

Example strptime_leap_day : CLocale.strptime "2024-02-29" = Return (PyDate.midnight 738945).
Proof. reflexivity. Qed.

Example strptime_rejects_day_31_in_april :
  CLocale.strptime "2024-04-31" = Raise (Exception "day is out of range for month").
Proof. reflexivity. Qed.

Example strftime_leap_day : CLocale.strftime (PyDate.midnight 738945) = "29-Feb-2024".
Proof. reflexivity. Qed.

(** The year of a date before the year 1000 is printed without padding. *)
Example strftime_year_999 : CLocale.strftime (PyDate.midnight 364513) = "01-Jan-999".
Proof. reflexivity. Qed.

Example strftime_last_day_of_999 :
  CLocale.strftime (PyDate.midnight 364877) = "31-Dec-999"
  /\ CLocale.strftime (PyDate.midnight 364878) = "01-Jan-1000".
Proof. split; reflexivity. Qed.

Example parseaddr_name_in_comment :
  CLocale.parseaddr_simple "support@example.com (Support Team)"
  = Return ("Support Team", "support@example.com").
Proof. reflexivity. Qed.

(** On the last representable day the widened bound does not exist: the
    retrieval fails before any search is sent. *)
Example no_search_on_the_last_day :
  @fetch_real_emails CLocale.lib Sample.app Sample.inbox
     Sample.day_2024_01_01 (PyDate.midnight PyDate.MAXORDINAL) []
  = (Raise (Exception "IMAP connection failed: date value out of range"),
     [ CONNECT "imap.gmail.com" 993; LOGIN "user@example.com" "app-password";
       SELECT_INBOX_READONLY; CLOSE; LOGOUT ]).
Proof. vm_compute. reflexivity. Qed.

(** Query "invoice" in scope Subject over "Invoice Attached" and "Meeting". *)
Example subject_query_invoice :
  let invoice := Sample.record "Alice" "alice@example.com" "Invoice Attached" "" 
                               Sample.day_2024_01_01 in
  let meeting := Sample.record "Bob" "bob@example.com" "Meeting" ""
                               Sample.day_2024_01_01 in
  filter (matches "invoice" Subject) [invoice; meeting] = [invoice].
Proof. reflexivity. Qed.

(** A body of 2500 characters is cut to the 2000-character budget. *)
Example body_budget :
  String.length
    (extract_email_body
       (Sample.text_message None (Raise (Exception "unused")) "s" "f@example.com"
                            (PyStr.repeat "x" 2500))) = 2000.
Proof. vm_compute. reflexivity. Qed.

(* ================================================================== *)
(** * Further properties of the code *)

(** ** Slices and joins *)

Lemma str_app_nil_r : forall s : string, s ++ "" = s.
Proof. induction s as [| c s IH]; simpl; [reflexivity | now rewrite IH]. Qed.

Lemma str_app_assoc : forall a b c : string, (a ++ b) ++ c = a ++ (b ++ c).
Proof. induction a as [| x a IH]; intros b c; simpl; [reflexivity | now rewrite IH]. Qed.

Lemma take_all : forall n s, String.length s <= n -> PyStr.take n s = s.
Proof.
  induction n as [| n IH]; intros [| c s] L; simpl in *; try reflexivity; try lia.
  rewrite IH; [reflexivity | lia].
Qed.

Lemma take_app_le : forall n a b,
  n <= String.length a -> PyStr.take n (a ++ b) = PyStr.take n a.
Proof.
  induction n as [| n IH]; intros [| c a] b L; simpl in *; try reflexivity; try lia.
  rewrite IH; [reflexivity | lia].
Qed.

Lemma take_app_ge : forall n a b,
  String.length a <= n -> PyStr.take n (a ++ b) = a ++ PyStr.take (n - String.length a) b.
Proof.
  intros n a. revert n. induction a as [| c a IH]; intros n b L.
  - simpl. now rewrite Nat.sub_0_r.
  - destruct n as [| n]; simpl in L; [lia |].
    simpl. rewrite IH; [reflexivity | lia].
Qed.

Lemma take_take : forall n s, PyStr.take n (PyStr.take n s) = PyStr.take n s.
Proof.
  induction n as [| n IH]; intros [| c s]; simpl; try reflexivity. now rewrite IH.
Qed.

Lemma take_take_le : forall m n s, m <= n -> PyStr.take m (PyStr.take n s) = PyStr.take m s.
Proof.
  induction m as [| m IH]; intros [| n] [| c s] L; simpl; try reflexivity; try lia.
  rewrite IH; [reflexivity | lia].
Qed.

Lemma join_app : forall a b, PyStr.join (a ++ b) = PyStr.join a ++ PyStr.join b.
Proof.
  induction a as [| x a IH]; intros b; simpl; [reflexivity |].
  now rewrite IH, str_app_assoc.
Qed.

(** ** Body extraction *)

Lemma walk_parts_join : forall parts remaining body_chunks,
  1 <= remaining ->
  PyStr.join (walk_parts parts remaining body_chunks)
  = PyStr.join body_chunks ++ PyStr.take remaining (PyStr.join (plain_texts parts)).
Proof.
  induction parts as [| part rest IH]; intros remaining body_chunks R.
  - simpl. destruct remaining; simpl; now rewrite str_app_nil_r.
  - cbn [walk_parts plain_texts].
    destruct (String.eqb (get_content_type part) "text/plain"); [| now apply IH].
    destruct (get_payload part) as [[text |] | e].
    + destruct text as [| c text]; [cbn [PyStr.truthy negb]; now apply IH |].
      cbn [PyStr.truthy negb]. set (t := String c text).
      change (PyStr.join (t :: plain_texts rest)) with (t ++ PyStr.join (plain_texts rest)).
      destruct (Nat.leb_spec remaining (String.length t)) as [L | L].
      * rewrite join_app, take_app_le by exact L. simpl. now rewrite str_app_nil_r.
      * rewrite IH by lia. rewrite join_app, take_app_ge by lia.
        simpl. now rewrite str_app_nil_r, str_app_assoc.
    + now apply IH.
    + simpl. destruct remaining; simpl; now rewrite str_app_nil_r.
Qed.

(** X1.  The body of a message is the first 2000 characters of its text:
    for a multipart message the texts of its text/plain parts, in order, up
    to the first part whose payload cannot be read (no other part is
    looked into); for a single-part message its decoded payload, or nothing
    when there is none or it cannot be read.  It is never longer than 2000
    characters. *)
Theorem body_is_first_2000_characters_of_plain_text : forall m : Message,
  extract_email_body m
  = PyStr.take MAX_LEN
      (if is_multipart m then PyStr.join (plain_texts (walk m))
       else match payload m with
            | Return (Some text) => text
            | _ => ""
            end)
  /\ String.length (extract_email_body m) <= MAX_LEN.
Proof.
  intros m.
  assert (E : extract_email_body m
              = PyStr.take MAX_LEN
                  (if is_multipart m then PyStr.join (plain_texts (walk m))
                   else match payload m with
                        | Return (Some text) => text
                        | _ => ""
                        end)).
  { unfold extract_email_body. destruct (is_multipart m).
    - rewrite walk_parts_join by (unfold MAX_LEN; lia). reflexivity.
    - destruct (payload m) as [[text |] | e].
      + cbn [PyStr.join fold_right]. apply str_app_nil_r.
      + unfold MAX_LEN. reflexivity.
      + unfold MAX_LEN. reflexivity. }
  split; [exact E |].
  rewrite E, take_length. lia.
Qed.

(** ** Previews *)

Lemma cut_again : forall m n text,
  m <= n ->
  (if m <? String.length (if n <? String.length text then PyStr.take n text ++ "..." else text)
   then PyStr.take m (if n <? String.length text then PyStr.take n text ++ "..." else text)
        ++ "..."
   else if n <? String.length text then PyStr.take n text ++ "..." else text)
  = (if m <? String.length text then PyStr.take m text ++ "..."
     else if n <? String.length text then PyStr.take n text ++ "..." else text).
Proof.
  intros m n text L.
  destruct (Nat.ltb_spec n (String.length text)) as [N | N].
  - assert (T : String.length (PyStr.take n text) = n) by (rewrite take_length; lia).
    rewrite append_length, T. change (String.length "...") with 3.
    destruct (Nat.ltb_spec m (n + 3)) as [M | M]; [| lia].
    destruct (Nat.ltb_spec m (String.length text)) as [M' | M']; [| lia].
    rewrite take_app_le by lia. now rewrite take_take_le.
  - reflexivity.
Qed.

(** X2.  Cutting a body to its preview a second time changes nothing, and
    the table cell made from a preview is the cell made from the body
    itself: the 200-character preview kept in the record loses nothing the
    100-character table cell shows. *)
Theorem preview_is_stable : forall text : string,
  body_preview (body_preview text) = body_preview text
  /\ body_cell (body_preview text) = body_cell text.
Proof.
  intros text. unfold body_preview, body_cell. split.
  - rewrite (cut_again 200 200 text) by lia.
    now destruct (200 <? String.length text).
  - rewrite (cut_again 100 200 text) by lia.
    destruct (Nat.ltb_spec 100 (String.length text)) as [A | A]; [reflexivity |].
    destruct (Nat.ltb_spec 200 (String.length text)) as [B | B]; [lia | reflexivity].
Qed.

(** ** Header decoding *)

Lemma decode_parts_returns : forall parts texts decoded_string,
  Forall2 (fun p t => part_text p = Return t) parts texts ->
  decode_parts parts decoded_string = Return (decoded_string ++ PyStr.join texts).
Proof.
  intros parts texts decoded_string F. revert decoded_string.
  induction F as [| p t parts texts P F IH]; intros decoded_string; simpl.
  - now rewrite str_app_nil_r.
  - destruct p as [part | [[| c enc] |] strict lenient]; simpl in P.
    + injection P as <-. now rewrite IH, str_app_assoc.
    + injection P as <-. now rewrite IH, str_app_assoc.
    + rewrite P. now rewrite IH, str_app_assoc.
    + injection P as <-. now rewrite IH, str_app_assoc.
Qed.

Lemma decode_parts_raises : forall parts decoded_string e,
  decode_parts parts decoded_string = Raise e ->
  exists done enc lenient rest,
    parts = (done ++ BytesPart (Some enc) (Raise e) lenient :: rest)%list
    /\ enc <> "".
Proof.
  induction parts as [| p parts IH]; intros decoded_string e D; simpl in D; [discriminate |].
  assert (K : forall acc, decode_parts parts acc = Raise e ->
                          exists done enc lenient rest,
                            (p :: parts)%list
                            = (done ++ BytesPart (Some enc) (Raise e) lenient :: rest)%list
                            /\ enc <> "").
  { intros acc D'. apply IH in D'. destruct D' as (done & enc & lenient & rest & -> & N).
    now exists (p :: done)%list, enc, lenient, rest. }
  destruct p as [part | [[| c enc] |] strict lenient]; try now apply K in D.
  destruct strict as [text | e']; [now apply K in D |].
  injection D as ->. exists [], (String c enc), lenient, parts. split; [reflexivity | discriminate].
Qed.

(** X3.  When every part of a header has a text (a string part, a bytes
    part without declared charset read leniently, or a bytes part that
    decodes in its declared charset), [decode_header] returns these texts
    joined in order. *)
Theorem decode_header_joins_the_parts : forall (parts : list HeaderPart) (texts : list string),
  Forall2 (fun p t => part_text p = Return t) parts texts ->
  decode_header (Some (Return parts)) = Return (PyStr.join texts).
Proof.
  intros parts texts F. unfold decode_header.
  now rewrite (decode_parts_returns parts texts "" F).
Qed.

Lemma decode_header_joins_the_parts_witness :
  let parts := [ StrPart "Re: ";
                 BytesPart None (Raise (Exception "unused")) "plan ";
                 BytesPart (Some "utf-8") (Return "B") "unused" ] in
  Forall2 (fun p t => part_text p = Return t) parts ["Re: "; "plan "; "B"]
  /\ decode_header (Some (Return parts)) = Return "Re: plan B".
Proof.
  intros parts.
  assert (F : Forall2 (fun p t => part_text p = Return t) parts ["Re: "; "plan "; "B"])
    by (repeat constructor).
  split; [exact F |].
  exact (decode_header_joins_the_parts parts _ F).
Defined.

(** X4.  [decode_header] raises only what the library raised on the header
    as a whole, or what decoding a bytes part in its declared, non-empty
    charset raised; a missing header, string parts and bytes parts without
    charset never make it fail. *)
Theorem decode_header_fails_only_on_declared_charset :
  forall (header_value : option (Exc (list HeaderPart))) (e : PyExc),
    decode_header header_value = Raise e ->
    header_value = Some (Raise e)
    \/ exists done enc lenient rest,
         header_value
         = Some (Return (done ++ BytesPart (Some enc) (Raise e) lenient :: rest)%list)
         /\ enc <> "".
Proof.
  intros [[parts | e'] |] e D; simpl in D.
  - right. apply decode_parts_raises in D.
    destruct D as (done & enc & lenient & rest & -> & N). eauto 6.
  - left. congruence.
  - discriminate.
Qed.

Lemma decode_header_fails_only_on_declared_charset_witness :
  let e := Exception
             "'utf-8' codec can't decode byte 0xff in position 0: invalid start byte" in
  decode_header (get_Subject Sample.bad_subject) = Raise e
  /\ (get_Subject Sample.bad_subject = Some (Raise e)
      \/ exists done enc lenient rest,
           get_Subject Sample.bad_subject
           = Some (Return (done ++ BytesPart (Some enc) (Raise e) lenient :: rest)%list)
           /\ enc <> "").
Proof.
  intros e.
  assert (D : decode_header (get_Subject Sample.bad_subject) = Raise e) by reflexivity.
  split; [exact D |].
  exact (decode_header_fails_only_on_declared_charset _ e D).
Defined.

(** ** When the fetch loop completes *)

Lemma build_record_returns_iff `{PyLib} : forall start_date m,
  (exists r, build_record start_date m = Return r) <-> headers_decode m.
Proof.
  intros start_date m. unfold build_record, headers_decode.
  destruct (decode_header (get_Subject m)) as [s |].
  - destruct (decode_header (get_From m)) as [f |].
    + destruct (parse_sender f). split; eauto.
    + split; [intros [r R]; discriminate | intros [_ [s' S']]; discriminate].
  - split; [intros [r R]; discriminate | intros [[s' S'] _]; discriminate].
Qed.

(** X5.  The fetch loop runs to its end exactly when no [fetch] call raises
    and the Subject and From headers of every message fetched and parsed
    decode; a message that cannot be fetched or parsed never stops it. *)
Theorem fetch_loop_completes_iff `{PyLib} :
  forall (mail : Server) (start_date : datetime) (email_ids : list string)
         (emails_data : list Email) (tr : list Command),
    (exists out tr', fetch_loop mail start_date email_ids emails_data tr = (Return out, tr'))
    <-> (forall email_id, In email_id email_ids -> exists r, fetch mail email_id = Return r)
        /\ (forall m, In m (fetched_messages mail email_ids) -> headers_decode m).
Proof.
  intros mail start_date email_ids.
  induction email_ids as [| email_id rest IH]; intros acc tr.
  - split; [intros _; split; intros ? [] | intros _; now exists acc, tr].
  - rewrite fetch_loop_cons. cbn [fetched_messages]. unfold fetched_message.
    destruct (fetch mail email_id) as [[status msg_data] | e] eqn:Fe.
    2:{ split; [intros (out & tr' & E); discriminate |].
        intros [F _]. destruct (F email_id (or_introl eq_refl)) as [r R]. congruence. }
    assert (All : (forall i, In i (email_id :: rest) -> exists r, fetch mail i = Return r)
                  <-> (forall i, In i rest -> exists r, fetch mail i = Return r)).
    { split; intros F i I; [apply F; now right |].
      destruct I as [<- | I]; [rewrite Fe; eauto | now apply F]. }
    rewrite All.
    destruct msg_data as [| [m | e]]; destruct (String.eqb status "OK");
      cbn [negb]; cbv iota; try apply IH.
    destruct (build_record start_date m) as [r | e] eqn:B.
    + rewrite IH. split; intros [F D]; (split; [exact F |]).
      * intros m' [<- | I]; [| now apply D].
        apply (build_record_returns_iff start_date). eauto.
      * intros m' I. apply D. now right.
    + split; [intros (out & tr' & E); discriminate |].
      intros [_ D]. specialize (D m (or_introl eq_refl)).
      apply (build_record_returns_iff start_date) in D. destruct D as [r R]. congruence.
Qed.

(** ** The session, call by call *)

Section SessionFacts.
Context `{PyLib}.
Local Open Scope list_scope.

Lemma fetch_calls_app : forall a b, fetch_calls (a ++ b) = fetch_calls a ++ fetch_calls b.
Proof.
  induction a as [| c a IH]; intros b; simpl; [reflexivity |].
  destruct c; simpl; now rewrite IH.
Qed.

Lemma fetch_calls_map : forall ids, fetch_calls (map FETCH ids) = ids.
Proof. induction ids as [| i ids IH]; simpl; [reflexivity | now rewrite IH]. Qed.

Lemma reads_only_map : forall ids, Forall (fun c => reads_only c = true) (map FETCH ids).
Proof. induction ids; simpl; constructor; auto. Qed.

Lemma fetch_loop_trace_prefix : forall mail start_date email_ids acc tr r tr',
  fetch_loop mail start_date email_ids acc tr = (r, tr') ->
  exists sent rest,
    email_ids = sent ++ rest
    /\ tr' = tr ++ map FETCH sent
    /\ (forall out, r = Return out -> rest = []).
Proof.
  induction email_ids as [| email_id rest IH]; intros acc tr r tr' E.
  - injection E as <- <-. exists [], []. simpl. rewrite app_nil_r. auto.
  - rewrite fetch_loop_cons in E.
    assert (K : forall acc0 r0 tr0,
               fetch_loop mail start_date rest acc0 (tr ++ [FETCH email_id]) = (r0, tr0) ->
               exists sent rest',
                 email_id :: rest = sent ++ rest'
                 /\ tr0 = tr ++ map FETCH sent
                 /\ (forall out, r0 = Return out -> rest' = [])).
    { intros acc0 r0 tr0 E0. apply IH in E0. destruct E0 as (sent & rest' & -> & -> & R).
      exists (email_id :: sent), rest'. now rewrite <- app_assoc. }
    assert (L : forall (e : PyExc) tr0,
               (Raise e : Exc (list Email), tr ++ [FETCH email_id]) = (r, tr0) ->
               exists sent rest',
                 email_id :: rest = sent ++ rest'
                 /\ tr0 = tr ++ map FETCH sent
                 /\ (forall out, r = Return out -> rest' = [])).
    { intros e tr0 E0. injection E0 as <- <-. exists [email_id], rest.
      repeat split. intros out D. discriminate. }
    destruct (fetch mail email_id) as [[status msg_data] | e]; [| now apply L in E].
    destruct (negb _); [now apply K in E |].
    destruct msg_data as [| [m | e]]; try now apply K in E.
    destruct (build_record start_date m); [now apply K in E | now apply L in E].
Qed.

Lemma session_body_shape : forall mail user pass start_date end_date tr r tr',
  session_body mail user pass start_date end_date tr = (r, tr') ->
  exists mid,
    tr' = tr ++ LOGIN user pass :: mid
    /\ Forall (fun c => reads_only c = true) mid
    /\ ((exists before_date id_bytes rest,
            PyDate.add_days end_date 1 = Return before_date
            /\ search mail (search_criteria (strftime_d_b_Y start_date)
                                            (strftime_d_b_Y before_date))
               = Return ("OK", id_bytes)
            /\ email_ids_of id_bytes = fetch_calls mid ++ rest
            /\ (forall out, r = Return out -> rest = []))
        \/ (fetch_calls mid = [] /\ exists e, r = Raise e)).
Proof.
  intros mail user pass start_date end_date tr r tr' E.
  unfold session_body, bind, call, lift, throw, ret in E.
  destruct (login mail user pass).
  2:{ injection E as <- <-. exists []. split; [reflexivity |]. split; [constructor |].
      right. eauto. }
  destruct (select mail) as [status |].
  2:{ injection E as <- <-. exists [SELECT_INBOX_READONLY].
      split; [now rewrite <- app_assoc |]. split; [repeat constructor |]. right. eauto. }
  destruct (negb (String.eqb status "OK")).
  { injection E as <- <-. exists [SELECT_INBOX_READONLY].
    split; [now rewrite <- app_assoc |]. split; [repeat constructor |]. right. eauto. }
  destruct (PyDate.add_days end_date 1) as [before_date |] eqn:A.
  2:{ injection E as <- <-. exists [SELECT_INBOX_READONLY].
      split; [now rewrite <- app_assoc |]. split; [repeat constructor |]. right. eauto. }
  set (c := search_criteria (strftime_d_b_Y start_date) (strftime_d_b_Y before_date)) in *.
  assert (Q : forall sent,
             ((tr ++ [LOGIN user pass]) ++ [SELECT_INBOX_READONLY]) ++ [SEARCH c]
               ++ map FETCH sent
             = tr ++ LOGIN user pass :: SELECT_INBOX_READONLY :: SEARCH c :: map FETCH sent).
  { intros sent. now rewrite <- !app_assoc. }
  assert (Q0 := Q []). cbn [map] in Q0.
  assert (F : forall sent, Forall (fun x => reads_only x = true)
                                  (SELECT_INBOX_READONLY :: SEARCH c :: map FETCH sent)).
  { intros sent. repeat constructor. apply reads_only_map. }
  destruct (search mail c) as [[status' id_bytes] |] eqn:S.
  2:{ injection E as <- <-. exists [SELECT_INBOX_READONLY; SEARCH c].
      split; [now rewrite <- !app_assoc |]. split; [apply (F []) |]. right. eauto. }
  destruct (String.eqb status' "OK") eqn:OK; cbn [negb] in E.
  2:{ injection E as <- <-. exists [SELECT_INBOX_READONLY; SEARCH c].
      split; [now rewrite <- !app_assoc |]. split; [apply (F []) |]. right. eauto. }
  apply String.eqb_eq in OK. subst status'.
  destruct id_bytes as [[| ch ids] |].
  - injection E as <- <-. exists [SELECT_INBOX_READONLY; SEARCH c].
    split; [now rewrite <- !app_assoc |]. split; [apply (F []) |].
    left. exists before_date, (Some ""), []. repeat split; trivial.
  - destruct (fetch_loop _ _ _ _ _) as [r0 tr0] eqn:L.
    apply fetch_loop_trace_prefix in L. destruct L as (sent & rest & I & -> & R).
    exists (SELECT_INBOX_READONLY :: SEARCH c :: map FETCH sent).
    split.
    { destruct r0; injection E as _ <-; now rewrite <- !app_assoc. }
    split; [apply F |].
    left. exists before_date, (Some (String ch ids)), rest.
    split; [reflexivity |]. split; [exact S |]. split.
    + cbn [fetch_calls email_ids_of]. now rewrite fetch_calls_map.
    + intros out D. destruct r0 as [out0 | e0]; [| now injection E as <- _].
      now apply (R out0).
  - injection E as <- <-. exists [SELECT_INBOX_READONLY; SEARCH c].
    split; [now rewrite <- !app_assoc |]. split; [apply (F []) |].
    left. exists before_date, None, []. repeat split; trivial.
Qed.
End SessionFacts.

(** X6.  Whatever the server answers, a retrieval leaves one of three
    traces on the connection.  With an address or password that is empty
    once stripped, it makes no call at all.  When the connection cannot be
    opened, it makes that one attempt and nothing else.  Otherwise it logs in
    with the stripped credentials, then only selects the inbox read-only,
    searches and fetches, and ends with [close] and [logout], also when it
    fails on the way. *)
Theorem session_is_always_torn_down `{PyLib} :
  forall (self : App) (mail : Server) (start_date end_date : datetime)
         (tr tr' : list Command) (r : Exc (list Email)),
    fetch_real_emails self mail start_date end_date tr = (r, tr') ->
    let user := PyStr.strip (email_var self) in
    let pass := PyStr.strip (password_var self) in
    let host := fst (get_server_config self) in
    let port := snd (get_server_config self) in
    (tr' = tr
     /\ r = Raise (Exception "Email and password are required when demo mode is off.")
     /\ (PyStr.truthy user = false \/ PyStr.truthy pass = false))
    \/ (tr' = (tr ++ [CONNECT host port])%list
        /\ exists e, IMAP4_SSL mail host port = Raise e /\ r = Raise (reraise e))
    \/ (exists mid,
           tr' = (tr ++ CONNECT host port :: LOGIN user pass :: mid ++ [CLOSE; LOGOUT])%list
           /\ Forall (fun c => reads_only c = true) mid).
Proof.
  intros self mail start_date end_date tr tr' r E user pass host port.
  unfold fetch_real_emails in E. fold user pass in E.
  destruct (PyStr.truthy user) eqn:U; cbn [negb orb] in E.
  2:{ left. unfold throw in E. injection E as <- <-. auto. }
  destruct (PyStr.truthy pass) eqn:P; cbn [negb orb] in E.
  2:{ left. unfold throw in E. injection E as <- <-. auto. }
  right. unfold host, port. destruct (get_server_config self) as [h p]. cbn [fst snd].
  unfold call in E.
  destruct (IMAP4_SSL mail h p) as [u | e].
  2:{ left. injection E as <- <-. eauto. }
  right.
  destruct (session_body _ _ _ _ _ _) as [r0 tr0] eqn:B.
  apply session_body_shape in B. destruct B as (mid & -> & F & _).
  exists mid. split; [| exact F].
  destruct r0; injection E as _ <-; now rewrite <- !app_assoc.
Qed.

(** The retrieval that fails on its second message still closes and logs
    out. *)
Lemma session_is_always_torn_down_witness :
  let trace :=
    [ CONNECT "imap.gmail.com" 993; LOGIN "user@example.com" "app-password";
      SELECT_INBOX_READONLY; SEARCH (search_criteria "01-Jan-2024" "02-Jan-2024");
      FETCH "1"; FETCH "2"; CLOSE; LOGOUT ] in
  let r : Exc (list Email) :=
    Raise (Exception
      "IMAP connection failed: 'utf-8' codec can't decode byte 0xff in position 0: invalid start byte") in
  @fetch_real_emails CLocale.lib Sample.app Sample.inbox_with_bad_subject
                     Sample.day_2024_01_01 Sample.day_2024_01_01 [] = (r, trace)
  /\ ((trace = [] /\ r = Raise (Exception "Email and password are required when demo mode is off.")
       /\ (PyStr.truthy (PyStr.strip (email_var Sample.app)) = false
           \/ PyStr.truthy (PyStr.strip (password_var Sample.app)) = false))
      \/ (trace = ([] ++ [CONNECT (fst (get_server_config Sample.app))
                                  (snd (get_server_config Sample.app))])%list
          /\ exists e, IMAP4_SSL Sample.inbox_with_bad_subject
                                 (fst (get_server_config Sample.app))
                                 (snd (get_server_config Sample.app)) = Raise e
                       /\ r = Raise (reraise e))
      \/ (exists mid,
             trace = ([] ++ CONNECT (fst (get_server_config Sample.app))
                                    (snd (get_server_config Sample.app))
                         :: LOGIN (PyStr.strip (email_var Sample.app))
                                  (PyStr.strip (password_var Sample.app))
                         :: mid ++ [CLOSE; LOGOUT])%list
             /\ Forall (fun c => reads_only c = true) mid)).
Proof.
  intros trace r.
  assert (E : @fetch_real_emails CLocale.lib Sample.app Sample.inbox_with_bad_subject
                Sample.day_2024_01_01 Sample.day_2024_01_01 [] = (r, trace))
    by (vm_compute; reflexivity).
  split; [exact E |].
  exact (@session_is_always_torn_down CLocale.lib _ _ _ _ _ _ _ E).
Defined.

(** X7.  Messages are fetched one at a time in the order in which the
    search listed them: the identifiers fetched are an initial stretch of the
    identifiers the search returned, and all of them when the retrieval
    completes.  No message is fetched unless the search answered OK. *)
Theorem messages_are_fetched_in_search_order `{PyLib} :
  forall (self : App) (mail : Server) (start_date end_date : datetime)
         (tr' : list Command) (r : Exc (list Email)),
    fetch_real_emails self mail start_date end_date [] = (r, tr') ->
    (exists before_date id_bytes rest,
        PyDate.add_days end_date 1 = Return before_date
        /\ search mail (search_criteria (strftime_d_b_Y start_date)
                                        (strftime_d_b_Y before_date))
           = Return ("OK", id_bytes)
        /\ email_ids_of id_bytes = (fetch_calls tr' ++ rest)%list
        /\ (forall out, r = Return out -> rest = []))
    \/ (fetch_calls tr' = [] /\ exists e, r = Raise e).
Proof.
  intros self mail start_date end_date tr' r E.
  unfold fetch_real_emails in E.
  destruct (_ || _).
  { right. unfold throw in E. injection E as <- <-. eauto. }
  destruct (get_server_config self) as [h p]. unfold call in E. cbn [app] in E.
  destruct (IMAP4_SSL mail h p) as [u | e].
  2:{ right. injection E as <- <-. eauto. }
  destruct (session_body _ _ _ _ _ _) as [r0 tr0] eqn:B.
  apply session_body_shape in B. destruct B as (mid & -> & _ & S).
  assert (C : fetch_calls tr' = fetch_calls mid).
  { destruct r0; injection E as _ <-; cbn [app fetch_calls];
      rewrite fetch_calls_app; cbn [fetch_calls]; apply app_nil_r. }
  rewrite C.
  destruct S as [(before_date & id_bytes & rest & A & S & I & R) | (N & e & ->)].
  - left. exists before_date, id_bytes, rest. repeat split; trivial.
    intros out D. destruct r0 as [out0 | e0].
    + now apply (R out0).
    + injection E as <- _. discriminate.
  - right. split; [exact N |]. injection E as <- _. eauto.
Qed.

Lemma messages_are_fetched_in_search_order_witness :
  let r : Exc (list Email) :=
    Raise (Exception
      "IMAP connection failed: 'utf-8' codec can't decode byte 0xff in position 0: invalid start byte") in
  let trace :=
    [ CONNECT "imap.gmail.com" 993; LOGIN "user@example.com" "app-password";
      SELECT_INBOX_READONLY; SEARCH (search_criteria "01-Jan-2024" "02-Jan-2024");
      FETCH "1"; FETCH "2"; CLOSE; LOGOUT ] in
  @fetch_real_emails CLocale.lib Sample.app Sample.inbox_with_bad_subject
                     Sample.day_2024_01_01 Sample.day_2024_01_01 [] = (r, trace)
  /\ fetch_calls trace = ["1"; "2"]
  /\ ((exists before_date id_bytes rest,
          PyDate.add_days Sample.day_2024_01_01 1 = Return before_date
          /\ search Sample.inbox_with_bad_subject
                    (search_criteria (CLocale.strftime Sample.day_2024_01_01)
                                     (CLocale.strftime before_date))
             = Return ("OK", id_bytes)
          /\ email_ids_of id_bytes = (fetch_calls trace ++ rest)%list
          /\ (forall out, r = Return out -> rest = []))
      \/ (fetch_calls trace = [] /\ exists e, r = Raise e)).
Proof.
  intros r trace.
  assert (E : @fetch_real_emails CLocale.lib Sample.app Sample.inbox_with_bad_subject
                Sample.day_2024_01_01 Sample.day_2024_01_01 [] = (r, trace))
    by (vm_compute; reflexivity).
  split; [exact E |]. split; [reflexivity |].
  exact (@messages_are_fetched_in_search_order CLocale.lib _ _ _ _ _ _ E).
Defined.

(** X8.  A retrieval never lets an exception of the mail library through as
    it is: whatever fails, the caller gets a plain [Exception] whose text is
    the missing-credentials message or one of the two labels followed by the
    text of the original exception. *)
Theorem every_failure_is_a_labelled_exception `{PyLib} :
  forall (self : App) (mail : Server) (start_date end_date : datetime)
         (tr : list Command) (e : PyExc),
    fst (fetch_real_emails self mail start_date end_date tr) = Raise e ->
    exists msg,
      e = Exception msg
      /\ (msg = "Email and password are required when demo mode is off."
          \/ exists detail,
               msg = "IMAP authentication/search error: " ++ detail
               \/ msg = "IMAP connection failed: " ++ detail).
Proof.
  intros self mail start_date end_date tr e E.
  assert (W : forall e0, exists msg,
               reraise e0 = Exception msg
               /\ (msg = "Email and password are required when demo mode is off."
                   \/ exists detail,
                        msg = "IMAP authentication/search error: " ++ detail
                        \/ msg = "IMAP connection failed: " ++ detail)).
  { intros [m | m]; eexists; (split; [reflexivity |]); right; exists m; auto. }
  unfold fetch_real_emails in E.
  destruct (_ || _).
  { unfold throw in E. cbn [fst] in E. injection E as <-. eexists. split; [reflexivity |]. now left. }
  destruct (get_server_config self) as [h p]. unfold call in E.
  destruct (IMAP4_SSL mail h p) as [u | e0].
  2:{ cbn [fst] in E. injection E as <-. apply W. }
  destruct (session_body _ _ _ _ _ _) as [[out | e0] tr0]; cbn [fst] in E; [discriminate |].
  injection E as <-. apply W.
Qed.

Lemma every_failure_is_a_labelled_exception_witness :
  let e := Exception "IMAP connection failed: IMAP search failed" in
  fst (@fetch_real_emails CLocale.lib Sample.app Sample.search_refused
         Sample.day_2024_01_01 Sample.day_2024_01_01 []) = Raise e
  /\ exists msg,
       e = Exception msg
       /\ (msg = "Email and password are required when demo mode is off."
           \/ exists detail,
                msg = "IMAP authentication/search error: " ++ detail
                \/ msg = "IMAP connection failed: " ++ detail).
Proof.
  intros e.
  assert (E : fst (@fetch_real_emails CLocale.lib Sample.app Sample.search_refused
                     Sample.day_2024_01_01 Sample.day_2024_01_01 []) = Raise e)
    by (vm_compute; reflexivity).
  split; [exact E |].
  exact (@every_failure_is_a_labelled_exception CLocale.lib _ _ _ _ _ e E).
Defined.

(** X9.  When the search answers OK and lists no identifier (no data, an
    empty answer, or blanks only), the retrieval succeeds with no records and
    fetches nothing: it connects, logs in, selects, searches, closes and logs
    out. *)
Theorem empty_search_gives_empty_success `{PyLib} :
  forall (self : App) (mail : Server) (start_date end_date before_date : datetime)
         (id_bytes : option string),
    PyStr.truthy (PyStr.strip (email_var self)) = true ->
    PyStr.truthy (PyStr.strip (password_var self)) = true ->
    IMAP4_SSL mail (fst (get_server_config self)) (snd (get_server_config self)) = Return tt ->
    login mail (PyStr.strip (email_var self)) (PyStr.strip (password_var self)) = Return tt ->
    select mail = Return "OK" ->
    PyDate.add_days end_date 1 = Return before_date ->
    search mail (search_criteria (strftime_d_b_Y start_date) (strftime_d_b_Y before_date))
    = Return ("OK", id_bytes) ->
    email_ids_of id_bytes = [] ->
    fetch_real_emails self mail start_date end_date []
    = (Return [],
       [ CONNECT (fst (get_server_config self)) (snd (get_server_config self));
         LOGIN (PyStr.strip (email_var self)) (PyStr.strip (password_var self));
         SELECT_INBOX_READONLY;
         SEARCH (search_criteria (strftime_d_b_Y start_date) (strftime_d_b_Y before_date));
         CLOSE; LOGOUT ]).
Proof.
  intros self mail start_date end_date before_date id_bytes U P C L S A R I.
  unfold fetch_real_emails. rewrite U, P. cbn [negb orb].
  destruct (get_server_config self) as [h p]. cbn [fst snd] in *.
  unfold call. rewrite C.
  unfold session_body, bind, call, lift, throw, ret. rewrite L, S, A.
  cbn [String.eqb Ascii.eqb Bool.eqb negb]. rewrite R.
  cbn [String.eqb Ascii.eqb Bool.eqb negb].
  destruct id_bytes as [[| ch ids] |]; try reflexivity.
  cbn [email_ids_of] in I. rewrite I. reflexivity.
Qed.

Lemma empty_search_gives_empty_success_witness :
  PyStr.truthy (PyStr.strip (email_var Sample.app)) = true
  /\ PyStr.truthy (PyStr.strip (password_var Sample.app)) = true
  /\ email_ids_of (Some "  ") = []
  /\ @fetch_real_emails CLocale.lib Sample.app (Sample.server "  " [])
                        Sample.day_2024_01_01 Sample.day_2024_01_01 []
     = (Return [],
        [ CONNECT "imap.gmail.com" 993; LOGIN "user@example.com" "app-password";
          SELECT_INBOX_READONLY; SEARCH (search_criteria "01-Jan-2024" "02-Jan-2024");
          CLOSE; LOGOUT ]).
Proof.
  assert (U : PyStr.truthy (PyStr.strip (email_var Sample.app)) = true) by reflexivity.
  assert (P : PyStr.truthy (PyStr.strip (password_var Sample.app)) = true) by reflexivity.
  assert (I : email_ids_of (Some "  ") = []) by reflexivity.
  split; [exact U |]. split; [exact P |]. split; [exact I |].
  exact (@empty_search_gives_empty_success CLocale.lib Sample.app (Sample.server "  " [])
           Sample.day_2024_01_01 Sample.day_2024_01_01
           (mk_datetime 738887 0) (Some "  ") U P eq_refl eq_refl eq_refl eq_refl eq_refl I).
Defined.

(** ** The connection test *)

(** X10.  The connection test shows exactly one message box and touches
    neither the collection nor the filter state.  On the connection it does
    nothing (demo mode, or credentials missing once stripped), or attempts
    to connect and fails, or connects, logs in, possibly selects the inbox
    read-only, and always closes and logs out; it never searches and never
    fetches. *)
Theorem connection_test_only_connects_and_reports :
  forall (self self' : App) (mail : Server) (tr tr' : list Command),
    test_imap_connection self mail tr = (self', tr') ->
    let host := fst (get_server_config self) in
    let port := snd (get_server_config self) in
    let user := PyStr.strip (email_var self) in
    let pass := PyStr.strip (password_var self) in
    same_results self self'
    /\ (exists box, ui self' = (ui self ++ [box])%list /\ title_of box <> "")
    /\ (tr' = tr
        \/ tr' = (tr ++ [CONNECT host port])%list
        \/ tr' = (tr ++ [CONNECT host port; LOGIN user pass; CLOSE; LOGOUT])%list
        \/ tr' = (tr ++ [CONNECT host port; LOGIN user pass; SELECT_INBOX_READONLY;
                         CLOSE; LOGOUT])%list).
Proof.
  intros self self' mail tr tr' E host port user pass.
  assert (R : forall e, same_results self (connection_test_error e self)
                        /\ exists box, ui (connection_test_error e self)
                                       = (ui self ++ [box])%list /\ title_of box <> "").
  { intros [m | m]; (split; [unfold same_results; cbn; auto |]);
      eexists; (split; [reflexivity | discriminate]). }
  unfold test_imap_connection in E. fold user pass in E.
  destruct (demo_mode_var self).
  { injection E as <- <-. split; [unfold same_results; cbn; auto |].
    split; [eexists; split; [reflexivity | discriminate] | now left]. }
  unfold host, port. destruct (get_server_config self) as [h p]. cbn [fst snd].
  destruct (_ || _).
  { injection E as <- <-. split; [unfold same_results; cbn; auto |].
    split; [eexists; split; [reflexivity | discriminate] | now left]. }
  unfold call, bind in E.
  destruct (IMAP4_SSL mail h p).
  2:{ injection E as <- <-. destruct (R e) as [S B]. auto. }
  destruct (login mail user pass).
  2:{ injection E as <- <-. destruct (R e) as [S B]. split; [exact S |]. split; [exact B |].
      right. right. left. now rewrite <- !app_assoc. }
  destruct (select mail) as [status | e].
  2:{ injection E as <- <-. destruct (R e) as [S B]. split; [exact S |]. split; [exact B |].
      right. right. right. now rewrite <- !app_assoc. }
  injection E as <- <-.
  split; [destruct (String.eqb status "OK"); unfold same_results; cbn; auto |].
  split.
  - destruct (String.eqb status "OK"); eexists; (split; [reflexivity | discriminate]).
  - right. right. right. now rewrite <- !app_assoc.
Qed.

Lemma connection_test_only_connects_and_reports_witness :
  let after :=
    show (showwarning "Partial Success"
            "Logged in, but could not open INBOX. Check mailbox permissions.") Sample.app in
  let trace :=
    [ CONNECT "imap.gmail.com" 993; LOGIN "user@example.com" "app-password";
      SELECT_INBOX_READONLY; CLOSE; LOGOUT ] in
  test_imap_connection Sample.app Sample2.select_refused [] = (after, trace)
  /\ same_results Sample.app after.
Proof.
  intros after trace.
  assert (E : test_imap_connection Sample.app Sample2.select_refused [] = (after, trace))
    by (vm_compute; reflexivity).
  split; [exact E |].
  exact (proj1 (connection_test_only_connects_and_reports _ _ _ _ _ E)).
Defined.

(** X11.  With demo mode off and credentials present, the connection test
    reports "Connection Successful" exactly when the connection opens, the
    login is accepted and the inbox is selected with status OK; in every
    other case its one message box carries another title. *)
Theorem connection_test_succeeds_iff_inbox_opens :
  forall (self : App) (mail : Server) (tr : list Command),
    demo_mode_var self = false ->
    PyStr.truthy (PyStr.strip (email_var self)) = true ->
    PyStr.truthy (PyStr.strip (password_var self)) = true ->
    exists box,
      ui (fst (test_imap_connection self mail tr)) = (ui self ++ [box])%list
      /\ (title_of box = "Connection Successful"
          <-> IMAP4_SSL mail (fst (get_server_config self)) (snd (get_server_config self))
              = Return tt
              /\ login mail (PyStr.strip (email_var self)) (PyStr.strip (password_var self))
                 = Return tt
              /\ select mail = Return "OK").
Proof.
  intros self mail tr D U P. unfold test_imap_connection. rewrite D, U, P. cbn [negb orb].
  destruct (get_server_config self) as [h p]. cbn [fst snd]. unfold call, bind.
  assert (R : forall e, title_of (match e with
                                  | IMAP4_error msg =>
                                      showerror "Authentication Failed"
                                        ("Server rejected login: " ++ msg ++ nl ++ nl
                                         ++ "If using Gmail, use an App Password. "
                                         ++ "If using Outlook 365, Basic Auth may be disabled.")
                                  | Exception msg =>
                                      showerror "Connection Error" ("Unable to connect: " ++ msg)
                                  end) <> "Connection Successful").
  { intros [m | m]; discriminate. }
  destruct (IMAP4_SSL mail h p) as [[] | e].
  2:{ cbn [fst]. destruct e as [m | m]; eexists; (split; [reflexivity |]);
        (split; [discriminate | intros (X & _); discriminate]). }
  destruct (login mail _ _) as [[] | e].
  2:{ cbn [fst]. destruct e as [m | m]; eexists; (split; [reflexivity |]);
        (split; [discriminate | intros (_ & X & _); discriminate]). }
  destruct (select mail) as [status | e].
  2:{ cbn [fst]. destruct e as [m | m]; eexists; (split; [reflexivity |]);
        (split; [discriminate | intros (_ & _ & X); discriminate]). }
  cbn [fst]. destruct (String.eqb status "OK") eqn:OK.
  - apply String.eqb_eq in OK. subst status. eexists. split; [reflexivity |].
    split; auto.
  - eexists. split; [reflexivity |].
    split; [discriminate |]. intros (_ & _ & X). injection X as ->.
    discriminate.
Qed.

Lemma connection_test_succeeds_iff_inbox_opens_witness :
  demo_mode_var Sample.app = false
  /\ PyStr.truthy (PyStr.strip (email_var Sample.app)) = true
  /\ PyStr.truthy (PyStr.strip (password_var Sample.app)) = true
  /\ exists box,
       ui (fst (test_imap_connection Sample.app Sample.inbox [])) = (ui Sample.app ++ [box])%list
       /\ (title_of box = "Connection Successful"
           <-> IMAP4_SSL Sample.inbox (fst (get_server_config Sample.app))
                         (snd (get_server_config Sample.app)) = Return tt
               /\ login Sample.inbox (PyStr.strip (email_var Sample.app))
                        (PyStr.strip (password_var Sample.app)) = Return tt
               /\ select Sample.inbox = Return "OK").
Proof.
  split; [reflexivity |]. split; [reflexivity |]. split; [reflexivity |].
  exact (connection_test_succeeds_iff_inbox_opens Sample.app Sample.inbox []
           eq_refl eq_refl eq_refl).
Defined.

(** ** Substrings and letter case *)

Lemma prefix_app : forall q a b, String.prefix q a = true -> String.prefix q (a ++ b) = true.
Proof.
  induction q as [| c q IH]; intros a b P; [destruct a, b; reflexivity |].
  destruct a as [| d a]; simpl in *; [discriminate |].
  destruct (ascii_dec c d); [now apply IH | discriminate].
Qed.

Lemma contains_app_l : forall q a b,
  PyStr.contains q a = true -> PyStr.contains q (a ++ b) = true.
Proof.
  induction a as [| d a IH]; intros b C.
  - simpl in C. rewrite orb_false_r in C.
    destruct q; [now destruct b | discriminate].
  - cbn [PyStr.contains] in C. apply orb_true_iff in C.
    change (String d a ++ b) with (String d (a ++ b)). cbn [PyStr.contains].
    apply orb_true_iff. destruct C as [C | C].
    + left. now apply (prefix_app q (String d a) b).
    + right. now apply IH.
Qed.

Lemma contains_app_r : forall q a b,
  PyStr.contains q b = true -> PyStr.contains q (a ++ b) = true.
Proof.
  induction a as [| d a IH]; intros b C; [exact C |].
  change (String d a ++ b) with (String d (a ++ b)). cbn [PyStr.contains].
  apply orb_true_iff. right. now apply IH.
Qed.

Lemma lower_app : forall a b, PyStr.lower (a ++ b) = PyStr.lower a ++ PyStr.lower b.
Proof. induction a as [| c a IH]; intros b; simpl; [reflexivity | now rewrite IH]. Qed.

Lemma lower_char_idem : forall c, PyStr.lower_char (PyStr.lower_char c) = PyStr.lower_char c.
Proof. intros [[] [] [] [] [] [] [] []]; reflexivity. Qed.

Lemma isspace_lower_char : forall c, PyStr.isspace (PyStr.lower_char c) = PyStr.isspace c.
Proof. intros [[] [] [] [] [] [] [] []]; reflexivity. Qed.

Lemma lower_idem : forall s, PyStr.lower (PyStr.lower s) = PyStr.lower s.
Proof.
  induction s as [| c s IH]; simpl; [reflexivity |]. now rewrite lower_char_idem, IH.
Qed.

Lemma lstrip_lower : forall s,
  PyStr.lstrip_by PyStr.isspace (PyStr.lower s) = PyStr.lower (PyStr.lstrip_by PyStr.isspace s).
Proof.
  induction s as [| c s IH]; simpl; [reflexivity |].
  rewrite isspace_lower_char. now destruct (PyStr.isspace c).
Qed.

Lemma rstrip_lower : forall s,
  PyStr.rstrip_by PyStr.isspace (PyStr.lower s) = PyStr.lower (PyStr.rstrip_by PyStr.isspace s).
Proof.
  induction s as [| c s IH]; simpl; [reflexivity |].
  rewrite IH, isspace_lower_char.
  destruct (PyStr.rstrip_by PyStr.isspace s); simpl; [| reflexivity].
  now destruct (PyStr.isspace c).
Qed.

Lemma strip_lower : forall s, PyStr.strip (PyStr.lower s) = PyStr.lower (PyStr.strip s).
Proof. intros s. unfold PyStr.strip. now rewrite lstrip_lower, rstrip_lower. Qed.

Lemma rstrip_idem : forall p s, PyStr.rstrip_by p (PyStr.rstrip_by p s) = PyStr.rstrip_by p s.
Proof.
  induction s as [| c s IH]; simpl; [reflexivity |].
  destruct (PyStr.rstrip_by p s) as [| d r] eqn:R.
  - destruct (p c) eqn:C; simpl; [reflexivity | now rewrite C].
  - cbn [PyStr.rstrip_by]. cbn [PyStr.rstrip_by] in IH. now rewrite IH.
Qed.

Lemma lstrip_rstrip_head : forall p s,
  PyStr.lstrip_by p s = s -> PyStr.lstrip_by p (PyStr.rstrip_by p s) = PyStr.rstrip_by p s.
Proof.
  intros p [| c s] L; [reflexivity |].
  cbn [PyStr.lstrip_by] in L.
  destruct (p c) eqn:C.
  - exfalso. assert (N : String.length (PyStr.lstrip_by p s) <= String.length s).
    { clear. induction s as [| d s IH]; simpl; [lia |]. destruct (p d); simpl; lia. }
    rewrite L in N. simpl in N. lia.
  - cbn [PyStr.rstrip_by].
    destruct (PyStr.rstrip_by p s); rewrite ?C; cbn [PyStr.lstrip_by]; now rewrite C.
Qed.

Lemma lstrip_idem : forall p s, PyStr.lstrip_by p (PyStr.lstrip_by p s) = PyStr.lstrip_by p s.
Proof.
  induction s as [| c s IH]; simpl; [reflexivity |].
  destruct (p c) eqn:C; [exact IH |]. simpl. now rewrite C.
Qed.

Lemma strip_idem : forall s, PyStr.strip (PyStr.strip s) = PyStr.strip s.
Proof.
  intros s. unfold PyStr.strip.
  rewrite (lstrip_rstrip_head PyStr.isspace (PyStr.lstrip_by PyStr.isspace s))
    by apply lstrip_idem.
  apply rstrip_idem.
Qed.

(** ** Matching *)

(** X12.  A query is taken without regard to letter case or to blanks
    around it: the filter gives the same state for a query, for its lower
    case form and for its stripped form. *)
Theorem query_case_and_blanks_do_not_matter : forall (self : App) (query : string),
  apply_search_filter self (PyStr.lower query) = apply_search_filter self query
  /\ apply_search_filter self (PyStr.strip query) = apply_search_filter self query.
Proof.
  intros self query. unfold apply_search_filter.
  now rewrite strip_lower, lower_idem, strip_idem.
Qed.

(** X13.  Matching looks at the texts of a record in lower case only: in
    every scope a record without cached blob matches a query exactly when
    the record with its name, address, subject and body lower-cased does. *)
Theorem matching_ignores_the_case_of_the_record :
  forall (q : string) (t : FilterType) (item : Email),
    matches q t (set_search_blob None item) = matches q t (lower_fields item).
Proof.
  intros q t item.
  destruct t; unfold matches, search_blob, lower_fields, set_search_blob;
    cbn [name email subject body _search_blob];
    rewrite ?lower_app, ?lower_idem; reflexivity.
Qed.

Lemma blob_contains_fields : forall q item,
  PyStr.contains q (PyStr.lower (name item)) = true
  \/ PyStr.contains q (PyStr.lower (email item)) = true
  \/ PyStr.contains q (PyStr.lower (subject item)) = true
  \/ PyStr.contains q (PyStr.lower (body item)) = true ->
  PyStr.contains q (search_blob item) = true.
Proof.
  intros q item C. unfold search_blob. rewrite !lower_app.
  destruct C as [C | [C | [C | C]]].
  - now apply contains_app_l.
  - apply contains_app_r, contains_app_r. now apply contains_app_l.
  - do 4 apply contains_app_r. now apply contains_app_l.
  - now do 6 apply contains_app_r.
Qed.

(** ** Invariants of the running application *)

Lemma apply_search_filter_visible : forall self query,
  visible_is_all_or_last_query self ->
  visible_is_all_or_last_query (apply_search_filter self query).
Proof.
  intros self query Inv. unfold apply_search_filter.
  destruct (option_string_eqb _ _); [exact Inv |].
  destruct (PyStr.lower (PyStr.strip query)) as [| c q] eqn:Q; cbn [PyStr.truthy negb].
  - left. reflexivity.
  - right.
    exists (String c q), (match filter_type_var self with Some t => t | None => All end).
    split; [discriminate |].
    destruct (filter _ _) eqn:F; cbn; rewrite ?F; auto.
Qed.

Lemma on_fetch_done_visible : forall self data error status_text,
  visible_is_all_or_last_query self ->
  visible_is_all_or_last_query (_on_fetch_done self data error status_text).
Proof.
  intros self data [e |] status_text Inv; unfold _on_fetch_done.
  - destruct (PyStr.contains _ _); exact Inv.
  - left. cbn. now destruct (_build_search_cache data).
Qed.

Lemma same_results_visible : forall a b,
  same_results a b -> visible_is_all_or_last_query a -> visible_is_all_or_last_query b.
Proof.
  intros a b (E1 & E2 & E3 & _) Inv. unfold visible_is_all_or_last_query.
  rewrite E1, E2, E3. exact Inv.
Qed.

Lemma step_visible `{PyLib} : forall self ev,
  visible_is_all_or_last_query self -> visible_is_all_or_last_query (step self ev).
Proof.
  intros self ev Inv. destruct ev as [i | | | i w | b | | t | query |]; cbn [step].
  - exact Inv.
  - destruct (fetch_button_disabled self); [exact Inv |].
    exact (same_results_visible _ _ (fetch_emails_same_results self) Inv).
  - exact (same_results_visible _ _ (fetch_emails_same_results self) Inv).
  - destruct (nth_error _ _); exact Inv.
  - destruct (after_queue self) as [| cb rest]; [exact Inv |].
    destruct cb as [data status | exc]; cbn [run_callback].
    + apply on_fetch_done_visible. exact Inv.
    + destruct b; [apply on_fetch_done_visible |]; exact Inv.
  - destruct (emails_data self) eqn:E; [exact Inv |]. left. reflexivity.
  - apply apply_search_filter_visible. exact Inv.
  - apply apply_search_filter_visible. exact Inv.
  - destruct window_exists; [| exact Inv].
    apply apply_search_filter_visible. exact Inv.
Qed.

(** X14.  In every state the application can reach, the visible list is
    either the whole collection or exactly the records of the collection
    that match the last query applied, in the order of the collection: a
    record is never shown that is not in the collection, and never in
    another order. *)
Theorem visible_list_is_all_or_the_last_query `{PyLib} :
  forall (today_str : string) (evs : list Event),
    visible_is_all_or_last_query (run (init today_str) evs).
Proof.
  intros today_str evs.
  assert (G : forall evs self, visible_is_all_or_last_query self ->
                               visible_is_all_or_last_query (run self evs)).
  { clear evs. induction evs as [| ev evs IH]; intros self Inv; simpl; [exact Inv |].
    apply IH. now apply step_visible. }
  apply G. left. reflexivity.
Qed.

Lemma build_search_cache_built : forall data item,
  In item (_build_search_cache data) -> _search_blob item = Some (search_blob item).
Proof.
  intros data item I. unfold _build_search_cache in I.
  apply in_map_iff in I. destruct I as (x & <- & _). reflexivity.
Qed.

Lemma step_cache_built `{PyLib} : forall self ev,
  cache_built self -> cache_built (step self ev).
Proof.
  intros self ev Inv.
  assert (S : forall b, same_results self b -> cache_built b).
  { intros b (E & _). unfold cache_built. now rewrite E. }
  assert (A : forall s query, emails_data s = emails_data self ->
                              cache_built (apply_search_filter s query)).
  { intros s query E. unfold cache_built.
    now rewrite apply_search_filter_emails_data, E. }
  assert (D : forall s data error status_text,
             emails_data s = emails_data self ->
             cache_built (_on_fetch_done s data error status_text)).
  { intros s data [e |] status_text E; unfold _on_fetch_done, cache_built.
    - destruct (PyStr.contains _ _); cbn; now rewrite E.
    - intros item I. apply (build_search_cache_built data).
      revert I. cbn. now destruct (_build_search_cache data). }
  destruct ev as [i | | | i w | b | | t | query |]; cbn [step].
  - exact Inv.
  - destruct (fetch_button_disabled self); [exact Inv |].
    apply S, fetch_emails_same_results.
  - apply S, fetch_emails_same_results.
  - destruct (nth_error _ _); exact Inv.
  - destruct (after_queue self) as [| cb rest]; [exact Inv |].
    destruct cb as [data status | exc]; cbn [run_callback].
    + now apply D.
    + destruct b; [now apply D | exact Inv].
  - destruct (emails_data self) eqn:E; exact Inv.
  - now apply A.
  - now apply A.
  - destruct window_exists; [now apply A | exact Inv].
Qed.

Lemma run_cache_built `{PyLib} : forall evs self,
  cache_built self -> cache_built (run self evs).
Proof.
  induction evs as [| ev evs IH]; intros self Inv; simpl; [exact Inv |].
  apply IH. now apply step_cache_built.
Qed.

(** X15.  In every reachable state each record of the collection carries
    the search blob of its own texts, and a record that matches a query in
    scope Sender, Subject or Body also matches it in scope All. *)
Theorem all_scope_covers_the_other_scopes `{PyLib} :
  forall (today_str : string) (evs : list Event) (item : Email) (q : string) (t : FilterType),
    In item (emails_data (run (init today_str) evs)) ->
    _search_blob item = Some (search_blob item)
    /\ (matches q t item = true -> matches q All item = true).
Proof.
  intros today_str evs item q t I.
  assert (C : _search_blob item = Some (search_blob item)).
  { apply (run_cache_built evs (init today_str)); [intros x [] | exact I]. }
  split; [exact C |].
  intros M. destruct t; [exact M | | |];
    unfold matches; rewrite C; apply blob_contains_fields; cbn [matches] in M.
  - apply orb_true_iff in M. tauto.
  - tauto.
  - tauto.
Qed.

Lemma all_scope_covers_the_other_scopes_witness :
  let evs := [ EditInputs Sample.inputs; KeyFetch;
               WorkerFinishes 0 (Sample.world Sample.inbox); RunCallback true;
               OpenDashboard ] in
  let item := set_search_blob (Some (search_blob Sample2.invoice_record))
                              Sample2.invoice_record in
  In item (emails_data (@run CLocale.lib (init "2024-01-01") evs))
  /\ matches "invoice" Subject item = true
  /\ _search_blob item = Some (search_blob item)
  /\ (matches "invoice" Subject item = true -> matches "invoice" All item = true).
Proof.
  intros evs item.
  assert (I : In item (emails_data (@run CLocale.lib (init "2024-01-01") evs))).
  { vm_compute. right. left. reflexivity. }
  split; [exact I |]. split; [vm_compute; reflexivity |].
  exact (@all_scope_covers_the_other_scopes CLocale.lib "2024-01-01" evs item
           "invoice" Subject I).
Defined.

(** ** Repeating a query *)

Lemma apply_search_filter_key : forall self query,
  _last_filter (apply_search_filter self query)
  = Some (PyStr.lower (PyStr.strip query) ++ "|"
          ++ filter_type_name (match filter_type_var self with
                               | Some t => t
                               | None => All
                               end))
  /\ filter_type_var (apply_search_filter self query) = filter_type_var self.
Proof.
  intros self query. unfold apply_search_filter.
  destruct (option_string_eqb _ _) eqn:E.
  - apply option_string_eqb_true in E. now split.
  - destruct (negb _); [now split |]. cbn. now destruct (filter _ _).
Qed.

Lemma option_string_eqb_refl : forall s, option_string_eqb (Some s) s = true.
Proof. intros s. simpl. apply String.eqb_refl. Qed.

(** X16.  Applying the same query twice in a row is the same as applying it
    once: the second call finds its own key in [_last_filter] and returns
    at once, with no second notification. *)
Theorem repeating_a_query_changes_nothing : forall (self : App) (query : string),
  apply_search_filter (apply_search_filter self query) query
  = apply_search_filter self query.
Proof.
  intros self query.
  destruct (apply_search_filter_key self query) as [K T].
  unfold apply_search_filter at 1. rewrite T, K.
  now rewrite option_string_eqb_refl.
Qed.

(** X17.  [_on_fetch_done] installs a new collection without touching
    [_last_filter]: right after a successful delivery the visible list is
    the whole new collection, each record with its blob, and applying again
    the query that was last applied is skipped, so the list stays
    unfiltered. *)
Theorem query_is_not_reapplied_to_a_new_collection :
  forall (self : App) (query : string) (data : list Email) (status_text : string),
    let installed :=
      _on_fetch_done (apply_search_filter self query) data None status_text in
    emails_data installed = _build_search_cache data
    /\ filtered_emails installed = _build_search_cache data
    /\ apply_search_filter installed query = installed.
Proof.
  intros self query data status_text installed.
  destruct (apply_search_filter_key self query) as [K T].
  assert (E : emails_data installed = _build_search_cache data
              /\ filtered_emails installed = _build_search_cache data
              /\ _last_filter installed = _last_filter (apply_search_filter self query)
              /\ filter_type_var installed
                 = filter_type_var (apply_search_filter self query)).
  { unfold installed, _on_fetch_done. cbn. now destruct (_build_search_cache data). }
  destruct E as (E1 & E2 & E3 & E4).
  split; [exact E1 |]. split; [exact E2 |].
  unfold apply_search_filter at 1. rewrite E4, T, E3, K.
  now rewrite option_string_eqb_refl.
Qed.

(** ** Starting a retrieval *)

(** X18.  [fetch_emails] starts a worker exactly when both date fields are
    filled in and [validate_dates] shows a tick beside each: it then shows
    the loading state, disables the button and adds one worker for the
    parsed range.  In every other case it shows one error box and changes
    nothing else: no worker, no loading state, the button as it was. *)
Theorem fetch_starts_exactly_when_dates_are_accepted `{PyLib} : forall self : App,
  if dates_accepted self
  then exists start_date end_date,
         strptime_Y_m_d (start_date_var self) = Return start_date
         /\ strptime_Y_m_d (end_date_var self) = Return end_date
         /\ PyDate.gtb start_date end_date = false
         /\ fetch_emails self
            = set_threads (threads self
                             ++ [mk_job (demo_mode_var self) start_date end_date])
                (set_fetch_button_disabled true
                   (_show_loading "Fetching emails..." self))
  else exists message, fetch_emails self = show (showerror "Error" message) self.
Proof.
  intros self. unfold dates_accepted, validate_dates, fetch_emails.
  destruct (PyStr.truthy (start_date_var self)); cbn [andb negb orb]; [| eauto].
  destruct (PyStr.truthy (end_date_var self)); cbn [andb negb orb]; [| eauto].
  destruct (strptime_Y_m_d (start_date_var self)) as [start_date |];
    destruct (strptime_Y_m_d (end_date_var self)) as [end_date |]; eauto.
  destruct (PyDate.gtb start_date end_date) eqn:G; [eauto |].
  exists start_date, end_date. auto.
Qed.

(** ** Demo data *)

Lemma leb_replace_start : forall s d,
  PyDate.leb (PyDate.replace_time s 0 0 0) d = true ->
  (toordinal s <= toordinal d)%Z.
Proof.
  intros s d L. unfold PyDate.leb in L. apply negb_true_iff in L.
  apply datetime_ltb_false_spec in L. cbn in L. lia.
Qed.

Lemma leb_replace_end : forall e d,
  PyDate.leb d (PyDate.replace_time e 23 59 59) = true ->
  (toordinal d <= toordinal e)%Z.
Proof.
  intros e d L. unfold PyDate.leb in L. apply negb_true_iff in L.
  apply datetime_ltb_false_spec in L. cbn in L. lia.
Qed.

(** X19.  The demo loader keeps the records of the dataset, in the order of
    the dataset, whose day lies between the day of the start bound and the
    day of the end bound: the times of day of the two bounds play no part, a
    record stamped on a whole second of a day in the range is always kept,
    and a range whose end day is before its start day gives nothing. *)
Theorem demo_loader_selects_by_day :
  forall (dataset : list Email) (start_date end_date : datetime),
    load_demo_emails_between dataset start_date end_date
    = load_demo_emails_between dataset (PyDate.midnight (toordinal start_date))
                               (PyDate.midnight (toordinal end_date))
    /\ (forall item,
           In item (load_demo_emails_between dataset start_date end_date) ->
           In item dataset
           /\ (toordinal start_date <= toordinal (date item) <= toordinal end_date)%Z)
    /\ (forall item,
           In item dataset ->
           (toordinal start_date <= toordinal (date item) <= toordinal end_date)%Z ->
           (0 <= micro_of_day (date item) <= 86399000000)%Z ->
           In item (load_demo_emails_between dataset start_date end_date))
    /\ ((toordinal end_date < toordinal start_date)%Z ->
        load_demo_emails_between dataset start_date end_date = []).
Proof.
  intros dataset start_date end_date. split; [reflexivity |]. split; [| split].
  - intros item I. unfold load_demo_emails_between in I.
    apply filter_In in I. destruct I as [I C]. apply andb_true_iff in C.
    destruct C as [C1 C2]. apply leb_replace_start in C1. apply leb_replace_end in C2.
    split; [exact I | lia].
  - intros item I D M. unfold load_demo_emails_between.
    apply filter_In. split; [exact I |].
    apply andb_true_iff. unfold PyDate.leb.
    split; apply negb_true_iff, datetime_ltb_false_spec; cbn; lia.
  - intros R. unfold load_demo_emails_between.
    induction dataset as [| item dataset IH]; [reflexivity |].
    cbn [filter].
    destruct (PyDate.leb (PyDate.replace_time start_date 0 0 0) (date item)) eqn:C1;
      [| exact IH].
    destruct (PyDate.leb (date item) (PyDate.replace_time end_date 23 59 59)) eqn:C2;
      [| exact IH].
    apply leb_replace_start in C1. apply leb_replace_end in C2. lia.
Qed.

(** ** The table *)

Lemma insert_rows_columns : forall start_date end_date active_list index,
  map row_name (insert_rows start_date end_date index active_list) = map name active_list
  /\ map row_email (insert_rows start_date end_date index active_list)
     = map email active_list
  /\ map row_subject (insert_rows start_date end_date index active_list)
     = map subject active_list
  /\ map row_body (insert_rows start_date end_date index active_list)
     = map (fun r => body_cell (body r)) active_list.
Proof.
  induction active_list as [| r l IH]; intros index; simpl; [auto |].
  destruct (IH (S index)) as (A & B & C & D). now rewrite A, B, C, D.
Qed.

Lemma body_cell_length : forall text, String.length (body_cell text) <= 103.
Proof.
  intros text. unfold body_cell.
  destruct (Nat.ltb_spec 100 (String.length text)) as [L | L]; [| lia].
  rewrite append_length, take_length. change (String.length "...") with 3. lia.
Qed.

(** X20.  The table shows the records of the visible list, all of them and
    no other, newest first, records of equal timestamp in the order of the
    list; each row carries the name, address and subject of its record and a
    body cell of at most 103 characters. *)
Theorem table_shows_the_visible_list_newest_first : forall self : App,
  exists shown,
    Permutation (filtered_emails self) shown
    /\ sorted_desc shown
    /\ (forall t, with_date t shown = with_date t (filtered_emails self))
    /\ map row_name (tree_rows (populate_table self)) = map name shown
    /\ map row_email (tree_rows (populate_table self)) = map email shown
    /\ map row_subject (tree_rows (populate_table self)) = map subject shown
    /\ map row_body (tree_rows (populate_table self))
       = map (fun r => body_cell (body r)) shown
    /\ Forall (fun row => String.length (row_body row) <= 103)
              (tree_rows (populate_table self))
    /\ total_emails (populate_table self) = List.length (filtered_emails self).
Proof.
  intros self. exists (sort_reverse date (filtered_emails self)).
  destruct (insert_rows_columns (start_date_var self) (end_date_var self)
              (sort_reverse date (filtered_emails self)) 0) as (A & B & C & D).
  split; [apply sort_reverse_perm |]. split; [apply sort_reverse_sorted |].
  split; [intros t; apply (sort_reverse_keyed date) |].
  cbn [populate_table tree_rows total_emails].
  repeat (split; [assumption |]). split.
  - apply Forall_forall. intros row I.
    apply (in_map row_body) in I. rewrite D in I.
    apply in_map_iff in I. destruct I as (r & <- & _). apply body_cell_length.
  - symmetry. apply Permutation_length, sort_reverse_perm.
Qed.











(** A second retrieval, from an empty inbox, with the dashboard open: the
    collection is empty, and the screen still shows the five rows drawn
    when the dashboard was built. *)
Example table_is_not_redrawn_by_a_new_retrieval :
  let evs := [ EditInputs Sample.inputs; KeyFetch;
               WorkerFinishes 0 (Sample.world Sample.inbox); RunCallback true;
               OpenDashboard; KeyFetch;
               WorkerFinishes 0 (Sample.world Sample2.empty_inbox); RunCallback true ] in
  emails_data (@run CLocale.lib (init "2024-01-01") evs) = []
  /\ option_map total_in_dataset (@drawn_table CLocale.lib None (init "2024-01-01") evs)
     = Some 5
  /\ option_map (fun table => List.length (tree_rows table))
                (@drawn_table CLocale.lib None (init "2024-01-01") evs)
     = Some 5.
Proof.
  intros evs. split; [| split]; vm_compute; reflexivity.
Qed.

(** ** A demo retrieval from start to end *)

(** X22.  Started from an idle application in demo mode with an accepted
    date range, one retrieval cycle (start, worker, callback) installs
    exactly the demo records of the range, each with its search blob, shows
    all of them, and leaves the application idle again: button enabled,
    progress bar stopped, no worker and no callback pending.  The mail
    server is not consulted. *)
Theorem demo_cycle_installs_the_records_of_the_range `{PyLib} :
  forall (self : App) (w : World) (exc_bound : bool) (start_date end_date : datetime),
    threads self = [] ->
    after_queue self = [] ->
    demo_mode_var self = true ->
    PyStr.truthy (start_date_var self) = true ->
    PyStr.truthy (end_date_var self) = true ->
    strptime_Y_m_d (start_date_var self) = Return start_date ->
    strptime_Y_m_d (end_date_var self) = Return end_date ->
    PyDate.gtb start_date end_date = false ->
    let final := run self [KeyFetch; WorkerFinishes 0 w; RunCallback exc_bound] in
    emails_data final
    = _build_search_cache (load_demo_emails_between (demo_dataset w) start_date end_date)
    /\ filtered_emails final = emails_data final
    /\ fetch_button_disabled final = false
    /\ progress_bar_running final = false
    /\ threads final = []
    /\ after_queue final = [].
Proof.
  intros self w exc_bound start_date end_date T Q D S E PS PE G final.
  assert (F : fetch_emails self
              = set_threads [mk_job true start_date end_date]
                  (set_fetch_button_disabled true
                     (_show_loading "Fetching emails..." self))).
  { unfold fetch_emails. rewrite S, E, PS, PE, G. cbn. now rewrite T, D. }
  unfold final. cbn [run fold_left step]. rewrite F.
  cbn [threads set_threads nth_error remove_nth after_queue set_after_queue
       set_fetch_button_disabled _show_loading set_progress_bar_running set_status_label].
  rewrite Q. cbn [app worker use_demo job_start_date job_end_date run_callback].
  unfold _on_fetch_done. cbn.
  destruct (_build_search_cache _); cbn;
    (split; [reflexivity |]); (split; [reflexivity |]); (split; [reflexivity |]);
    (split; [reflexivity |]); split; reflexivity.
Qed.

Lemma demo_cycle_installs_the_records_of_the_range_witness :
  let final := @run CLocale.lib Sample2.demo_app
                    [KeyFetch; WorkerFinishes 0 Sample2.demo_world; RunCallback true] in
  threads Sample2.demo_app = []
  /\ after_queue Sample2.demo_app = []
  /\ demo_mode_var Sample2.demo_app = true
  /\ CLocale.strptime (start_date_var Sample2.demo_app) = Return Sample.day_2024_01_01
  /\ PyDate.gtb Sample.day_2024_01_01 Sample.day_2024_01_01 = false
  /\ emails_data final
     = _build_search_cache [Sample2.meeting_record; Sample2.invoice_record]
  /\ filtered_emails final = emails_data final.
Proof.
  intros final.
  split; [reflexivity |]. split; [reflexivity |]. split; [reflexivity |].
  split; [reflexivity |]. split; [reflexivity |].
  destruct (@demo_cycle_installs_the_records_of_the_range CLocale.lib
              Sample2.demo_app Sample2.demo_world true
              Sample.day_2024_01_01 Sample.day_2024_01_01
              eq_refl eq_refl eq_refl eq_refl eq_refl eq_refl eq_refl eq_refl)
    as (A & B & _).
  split; [exact A | exact B].
Defined.

(** ** Rebuilding the cache, sorting again *)

(** X23.  Building the search cache a second time changes nothing, and
    building it changes no record except for its blob and keeps the order
    and number of the records. *)
Theorem rebuilding_the_cache_is_harmless : forall emails : list Email,
  _build_search_cache (_build_search_cache emails) = _build_search_cache emails
  /\ map (set_search_blob None) (_build_search_cache emails)
     = map (set_search_blob None) emails
  /\ List.length (_build_search_cache emails) = List.length emails.
Proof.
  intros emails. unfold _build_search_cache. split; [| split].
  - rewrite map_map. apply map_ext. intros item. reflexivity.
  - rewrite map_map. apply map_ext. intros item. reflexivity.
  - apply length_map.
Qed.

Lemma sort_stable_sorted_id : forall l : list Email,
  StronglySorted (fun a b => PyDate.ltb (date b) (date a) = false) l ->
  sort_stable date l = l.
Proof.
  induction l as [| x l IH]; intros S; [reflexivity |].
  inversion S as [| ? ? S' F]; subst.
  cbn [sort_stable fold_right]. fold (sort_stable date l). rewrite (IH S').
  destruct l as [| y l']; [reflexivity |].
  inversion F as [| ? ? Fy F']; subst. cbn [insert_stable]. now rewrite Fy.
Qed.

Lemma rev_sorted_asc : forall l : list Email,
  sorted_desc l ->
  StronglySorted (fun a b => PyDate.ltb (date b) (date a) = false) (rev l).
Proof.
  unfold sorted_desc. induction l as [| x l IH]; intros S; simpl; [constructor |].
  inversion S as [| ? ? S' F]; subst.
  assert (G : forall (l1 : list Email) (y : Email),
             StronglySorted (fun a b => PyDate.ltb (date b) (date a) = false) l1 ->
             Forall (fun z => PyDate.ltb (date y) (date z) = false) l1 ->
             StronglySorted (fun a b => PyDate.ltb (date b) (date a) = false) (l1 ++ [y])).
  { induction l1 as [| z l1 IH1]; intros y S1 F1; simpl.
    - repeat constructor.
    - inversion S1; inversion F1; subst.
      constructor; [now apply IH1 |].
      apply Forall_app. split; [assumption | now repeat constructor]. }
  apply G; [now apply IH |].
  rewrite Forall_forall in F |- *. intros z Hz. apply in_rev in Hz.
  specialize (F z Hz). unfold PyDate.leb in F. now apply negb_true_iff in F.
Qed.

(** X24.  Sorting a list that is already newest first leaves it as it is:
    the table, which sorts the visible list again, shows a collection that
    a retrieval returned sorted in exactly the order of the collection. *)
Theorem sorting_a_sorted_list_changes_nothing : forall l : list Email,
  sorted_desc l -> sort_reverse date l = l.
Proof.
  intros l S. unfold sort_reverse.
  rewrite (sort_stable_sorted_id (rev l) (rev_sorted_asc l S)).
  apply rev_involutive.
Qed.

Lemma sorting_a_sorted_list_changes_nothing_witness :
  let l := [Sample2.meeting_record; Sample2.invoice_record;
            Sample.record "Carol" "carol@example.com" "Weekly Report" "Numbers are up."
                          (Sample.at_time 9 0)] in
  sorted_desc l /\ sort_reverse date l = l.
Proof.
  intros l.
  assert (S : sorted_desc l).
  { unfold sorted_desc, l. repeat constructor. }
  split; [exact S |].
  exact (sorting_a_sorted_list_changes_nothing l S).
Defined.

(** ** Loading state *)

Lemma apply_search_filter_loading : forall self query,
  progress_bar_running (apply_search_filter self query) = progress_bar_running self
  /\ fetch_button_disabled (apply_search_filter self query) = fetch_button_disabled self.
Proof.
  intros self query. unfold apply_search_filter.
  destruct (option_string_eqb _ _); [now split |].
  destruct (negb _); [now split |]. cbn. now destruct (filter _ _).
Qed.

Lemma fetch_emails_loading `{PyLib} : forall self,
  progress_bar_running self = fetch_button_disabled self ->
  progress_bar_running (fetch_emails self) = fetch_button_disabled (fetch_emails self).
Proof.
  intros self Inv. unfold fetch_emails.
  destruct (_ || _); [exact Inv |].
  destruct (strptime_Y_m_d (start_date_var self)); [| exact Inv].
  destruct (strptime_Y_m_d (end_date_var self)); [| exact Inv].
  destruct (PyDate.gtb _ _); [exact Inv | reflexivity].
Qed.

Lemma on_fetch_done_loading : forall self data error status_text,
  progress_bar_running (_on_fetch_done self data error status_text) = false
  /\ fetch_button_disabled (_on_fetch_done self data error status_text) = false.
Proof.
  intros self data [e |] status_text; unfold _on_fetch_done.
  - destruct (PyStr.contains _ _); now split.
  - cbn. destruct (_build_search_cache data); now split.
Qed.

(** X25.  In every reachable state the progress bar runs exactly when the
    fetch button is disabled: both are switched on together when a
    retrieval starts and off together when [_on_fetch_done] runs, and
    nothing else touches either. *)
Theorem progress_bar_runs_iff_button_disabled `{PyLib} :
  forall (today_str : string) (evs : list Event),
    progress_bar_running (run (init today_str) evs)
    = fetch_button_disabled (run (init today_str) evs).
Proof.
  intros today_str evs.
  assert (G : forall evs0 self,
             progress_bar_running self = fetch_button_disabled self ->
             progress_bar_running (run self evs0) = fetch_button_disabled (run self evs0)).
  { induction evs0 as [| ev evs0 IH]; intros self Inv; simpl; [exact Inv |].
    apply IH.
    assert (A : forall s query,
               progress_bar_running s = fetch_button_disabled s ->
               progress_bar_running (apply_search_filter s query)
               = fetch_button_disabled (apply_search_filter s query)).
    { intros s query I. destruct (apply_search_filter_loading s query) as [-> ->].
      exact I. }
    assert (D : forall s data error status_text,
               progress_bar_running (_on_fetch_done s data error status_text)
               = fetch_button_disabled (_on_fetch_done s data error status_text)).
    { intros s data error status_text.
      destruct (on_fetch_done_loading s data error status_text) as [-> ->]. reflexivity. }
    destruct ev as [i | | | i w | b | | t | query |]; cbn [step].
    - exact Inv.
    - destruct (fetch_button_disabled self) eqn:B; [now rewrite B |].
      apply fetch_emails_loading. now rewrite B.
    - now apply fetch_emails_loading.
    - destruct (nth_error _ _); exact Inv.
    - destruct (after_queue self) as [| cb rest]; [exact Inv |].
      destruct cb as [data status | exc]; cbn [run_callback]; [apply D |].
      destruct b; [apply D | exact Inv].
    - destruct (emails_data self); exact Inv.
    - now apply A.
    - now apply A.
    - destruct window_exists; [now apply A | exact Inv]. }
  apply G. reflexivity.
Qed.
